(** * run_task.py: the run task that auto-applies run-triggered runs

    A shallow embedding of [src/run_task.py] and the properties of its
    apply scheduler ([process_queue]), its per-event worker
    ([process_request]), its HTTP handler ([run_function]) and the reading
    of its secrets when the module is imported ([get_secret]).

    Conventions of the embedding.
    - A Python value that comes out of [json.loads] is a [pyval].  JSON
      numbers with a fraction or an exponent are not part of the embedding.
    - An f-string is kept as its template: the literal parts and the
      interpolated values, in order ([fstring]).
    - Every side effect is an [event]; a computation returns its result, the
      new state of the process and the events it performed, in order.
    - The network is a script: the replies the remote services will give, in
      the order the calls are made.  A call made when the script is used up
      raises [ConnectionError], as [requests] does when nothing answers.
    - Each function is embedded as the thread that runs it; the threads share
      the queue, which is part of the state. *)

From Stdlib Require Import ZArith List String Ascii Bool Lia Permutation.
From Stdlib Require Import DecimalString.
Import ListNotations.
Open Scope string_scope.
Open Scope list_scope.

(** ** Python values *)

#[warnings="-register-all"]
Inductive pyval : Type :=
| PNone
| PBool (b : bool)
| PInt (n : Z)
| PStr (s : string)
| PList (l : list pyval)
| PDict (d : list (string * pyval)).

(** A [dict] keeps its insertion order; a key is bound once. *)
Definition dict := list (string * pyval).

Fixpoint dict_get (d : dict) (k : string) : option pyval :=
  match d with
  | [] => None
  | (k', v) :: d' => if String.eqb k' k then Some v else dict_get d' k
  end.

(** [k in d] *)
Definition dict_mem (d : dict) (k : string) : bool :=
  match dict_get d k with Some _ => true | None => false end.

(** [d.get(k)], with its default [None] *)
Definition py_get (d : dict) (k : string) : pyval :=
  match dict_get d k with Some v => v | None => PNone end.

(** [bool(v)]: what [if not v] tests *)
Definition truthy (v : pyval) : bool :=
  match v with
  | PNone => false
  | PBool b => b
  | PInt n => negb (n =? 0)%Z
  | PStr s => negb (s =? EmptyString)
  | PList l => match l with [] => false | _ :: _ => true end
  | PDict d => match d with [] => false | _ :: _ => true end
  end.

Definition Z_of_bool (b : bool) : Z := if b then 1%Z else 0%Z.

(** [a == b].  [bool] is a subclass of [int], so [True == 1] and
    [False == 0]; two dicts are equal when they bind the same keys to equal
    values, whatever the order. *)
Fixpoint py_eq (a b : pyval) : bool :=
  match a, b with
  | PNone, PNone => true
  | PBool x, PBool y => Bool.eqb x y
  | PBool x, PInt n => (Z_of_bool x =? n)%Z
  | PInt m, PBool y => (m =? Z_of_bool y)%Z
  | PInt m, PInt n => (m =? n)%Z
  | PStr s, PStr t => (s =? t)
  | PList l, PList l' =>
      (fix all2 (l l' : list pyval) : bool :=
         match l, l' with
         | [], [] => true
         | x :: xs, y :: ys => py_eq x y && all2 xs ys
         | _, _ => false
         end) l l'
  | PDict d, PDict d' =>
      Nat.eqb (List.length d) (List.length d') &&
      (fix all (d : dict) : bool :=
         match d with
         | [] => true
         | (k, v) :: ds =>
             match dict_get d' k with
             | Some v' => py_eq v v'
             | None => false
             end && all ds
         end) d
  | _, _ => false
  end.

(** ** Exceptions, f-strings, HTTP *)

Inductive exn : Type :=
| KeyError (k : string)
| TypeError
| AttributeError
| JSONDecodeError
| ConnectionError
| RequestException (what : string).

Inductive result (A : Type) : Type :=
| Ret (a : A)        (* the call returned *)
| Raise (e : exn)    (* the call raised *)
| Block.             (* the call waits on the empty queue *)
Arguments Ret {A} a.
Arguments Raise {A} e.
Arguments Block {A}.

(** A value, or the exception raised instead. *)
Inductive fallible (A : Type) : Type :=
| Ok (a : A)
| Err (e : exn).
Arguments Ok {A} a.
Arguments Err {A} e.

(** [v[k]] *)
Definition subscript (v : pyval) (k : string) : fallible pyval :=
  match v with
  | PDict d =>
      match dict_get d k with
      | Some x => Ok x
      | None => Err (KeyError k)
      end
  | _ => Err TypeError
  end.

(** A piece of an f-string or of a printed line: a literal, an interpolated
    value ([{v}], that is [str(v)]), or [json.dumps(v, indent=2)]. *)
Inductive piece : Type :=
| Lit (s : string)
| Fmt (v : pyval)
| Dumps (v : pyval).

Definition fstring := list piece.

Definition headers := list (string * fstring).

(** What the code reads of a [requests.Response]: [status_code], [text] and
    [json()], which raises when the body is not JSON. *)
Record Response : Type := mkResponse {
  status_code : Z;
  text : string;
  json : option pyval
}.

(** The body of the callback: [tfc_body], whose ["attributes"] the code
    updates through the alias [tfc_body_attributes] before it is dumped. *)
Record attributes : Type := mkAttributes {
  status : string;
  message : option fstring
}.

Record task_results : Type := mkTaskResults {
  data_type : string;
  data_attributes : attributes
}.

Inductive request : Type :=
| GET (url : fstring) (hdrs : headers)
| POST (url : fstring) (hdrs : headers) (payload : pyval)
| PATCH (url : pyval) (data : task_results) (hdrs : headers).

Inductive reply : Type :=
| Answer (r : Response)
| Fault (e : exn).

(** The arguments of a worker thread: [body], [body_raw], [request_hmac]. *)
Record worker_args : Type := mkArgs {
  arg_body : dict;
  arg_body_raw : string;
  arg_request_hmac : option string
}.

(** What [run_function] reads of the Flask [request]. *)
Record flask_request : Type := mkRequest {
  get_json : pyval;
  data : string;
  headers_get : string -> option string;
  headers_str : string
}.

Record Flask_Response : Type := mkFlaskResponse {
  response_status : Z
}.

Inductive event : Type :=
| Print (line : fstring)
| Sleep (seconds : Z)
| Http (rq : request) (rp : reply)
| QueueGet (item : pyval)
| QueuePut (item : pyval)
| ThreadStart (args : worker_args).

(** ** The process: the shared queue and the network script *)

Record state : Type := mkState {
  run_ids_queue : list pyval;
  network : list reply
}.

Definition M (A : Type) : Type := state -> result A * state * list event.

Definition ret {A} (a : A) : M A := fun s => (Ret a, s, []).

Definition raise {A} (e : exn) : M A := fun s => (Raise e, s, []).

Definition bind {A B} (m : M A) (f : A -> M B) : M B :=
  fun s =>
    match m s with
    | (Ret a, s1, ev1) =>
        match f a s1 with
        | (r, s2, ev2) => (r, s2, ev1 ++ ev2)
        end
    | (Raise e, s1, ev1) => (Raise e, s1, ev1)
    | (Block, s1, ev1) => (Block, s1, ev1)
    end.

Declare Scope py_scope.
Delimit Scope py_scope with py.
Notation "x <- m ;; k" := (bind m (fun x => k))
  (at level 61, m at next level, right associativity) : py_scope.
Notation "m ;; k" := (bind m (fun _ => k))
  (at level 61, right associativity) : py_scope.
Open Scope py_scope.

Definition lift {A} (r : fallible A) : M A :=
  fun s => (match r with Ok a => Ret a | Err e => Raise e end, s, []).

Definition print (line : fstring) : M unit :=
  fun s => (Ret tt, s, [Print line]).

Definition time_sleep (seconds : Z) : M unit :=
  fun s => (Ret tt, s, [Sleep seconds]).

(** One call of [requests]: the next reply of the script. *)
Definition requests (rq : request) : M Response :=
  fun s =>
    match network s with
    | [] => (Raise ConnectionError, s, [Http rq (Fault ConnectionError)])
    | Answer r :: net =>
        (Ret r, mkState (run_ids_queue s) net, [Http rq (Answer r)])
    | Fault e :: net =>
        (Raise e, mkState (run_ids_queue s) net, [Http rq (Fault e)])
    end.

(** [run_ids_queue.put(item)]: append at the tail, never blocks. *)
Definition queue_put (item : pyval) : M unit :=
  fun s =>
    (Ret tt, mkState (run_ids_queue s ++ [item]) (network s), [QueuePut item]).

(** [run_ids_queue.get()]: take the head, wait when there is none. *)
Definition queue_get : M pyval :=
  fun s =>
    match run_ids_queue s with
    | [] => (Block, s, [])
    | item :: q => (Ret item, mkState q (network s), [QueueGet item])
    end.

(** [response.json()] *)
Definition response_json (r : Response) : M pyval :=
  match json r with
  | Some v => ret v
  | None => raise JSONDecodeError
  end.

(** [v[k]] inside a computation *)
Definition getitem (v : pyval) (k : string) : M pyval := lift (subscript v k).

(** ** HMAC-SHA512

    [hmac] and [hashlib] are Python's standard library.  The program below is
    stated over any [hexdigest]; this module gives the real one (FIPS 180-4,
    RFC 2104) on byte strings, so that examples run on real signatures. *)

Module HmacSha512.

Local Open Scope Z_scope.

Definition w64 (x : Z) : Z := x mod 2 ^ 64.

Definition add64 (x y : Z) : Z := w64 (x + y).

Definition rotr (n x : Z) : Z :=
  Z.lor (Z.shiftr x n) (w64 (Z.shiftl x (64 - n))).

Definition Ch (x y z : Z) : Z :=
  Z.lxor (Z.land x y) (Z.land (Z.lxor x (Z.ones 64)) z).

Definition Maj (x y z : Z) : Z :=
  Z.lxor (Z.lxor (Z.land x y) (Z.land x z)) (Z.land y z).

Definition Sigma0 (x : Z) : Z :=
  Z.lxor (Z.lxor (rotr 28 x) (rotr 34 x)) (rotr 39 x).

Definition Sigma1 (x : Z) : Z :=
  Z.lxor (Z.lxor (rotr 14 x) (rotr 18 x)) (rotr 41 x).

Definition sigma0 (x : Z) : Z :=
  Z.lxor (Z.lxor (rotr 1 x) (rotr 8 x)) (Z.shiftr x 7).

Definition sigma1 (x : Z) : Z :=
  Z.lxor (Z.lxor (rotr 19 x) (rotr 61 x)) (Z.shiftr x 6).

Definition K : list Z :=
  [
    0x428a2f98d728ae22; 0x7137449123ef65cd; 0xb5c0fbcfec4d3b2f; 0xe9b5dba58189dbbc;
    0x3956c25bf348b538; 0x59f111f1b605d019; 0x923f82a4af194f9b; 0xab1c5ed5da6d8118;
    0xd807aa98a3030242; 0x12835b0145706fbe; 0x243185be4ee4b28c; 0x550c7dc3d5ffb4e2;
    0x72be5d74f27b896f; 0x80deb1fe3b1696b1; 0x9bdc06a725c71235; 0xc19bf174cf692694;
    0xe49b69c19ef14ad2; 0xefbe4786384f25e3; 0x0fc19dc68b8cd5b5; 0x240ca1cc77ac9c65;
    0x2de92c6f592b0275; 0x4a7484aa6ea6e483; 0x5cb0a9dcbd41fbd4; 0x76f988da831153b5;
    0x983e5152ee66dfab; 0xa831c66d2db43210; 0xb00327c898fb213f; 0xbf597fc7beef0ee4;
    0xc6e00bf33da88fc2; 0xd5a79147930aa725; 0x06ca6351e003826f; 0x142929670a0e6e70;
    0x27b70a8546d22ffc; 0x2e1b21385c26c926; 0x4d2c6dfc5ac42aed; 0x53380d139d95b3df;
    0x650a73548baf63de; 0x766a0abb3c77b2a8; 0x81c2c92e47edaee6; 0x92722c851482353b;
    0xa2bfe8a14cf10364; 0xa81a664bbc423001; 0xc24b8b70d0f89791; 0xc76c51a30654be30;
    0xd192e819d6ef5218; 0xd69906245565a910; 0xf40e35855771202a; 0x106aa07032bbd1b8;
    0x19a4c116b8d2d0c8; 0x1e376c085141ab53; 0x2748774cdf8eeb99; 0x34b0bcb5e19b48a8;
    0x391c0cb3c5c95a63; 0x4ed8aa4ae3418acb; 0x5b9cca4f7763e373; 0x682e6ff3d6b2b8a3;
    0x748f82ee5defb2fc; 0x78a5636f43172f60; 0x84c87814a1f0ab72; 0x8cc702081a6439ec;
    0x90befffa23631e28; 0xa4506cebde82bde9; 0xbef9a3f7b2c67915; 0xc67178f2e372532b;
    0xca273eceea26619c; 0xd186b8c721c0c207; 0xeada7dd6cde0eb1e; 0xf57d4f7fee6ed178;
    0x06f067aa72176fba; 0x0a637dc5a2c898a6; 0x113f9804bef90dae; 0x1b710b35131c471b;
    0x28db77f523047d84; 0x32caab7b40c72493; 0x3c9ebe0a15c9bebc; 0x431d67c49c100d4c;
    0x4cc5d4becb3e42b6; 0x597f299cfc657e2a; 0x5fcb6fab3ad6faec; 0x6c44198c4a475817 ].

Definition H0 : list Z :=
  [
    0x6a09e667f3bcc908; 0xbb67ae8584caa73b; 0x3c6ef372fe94f82b; 0xa54ff53a5f1d36f1;
    0x510e527fade682d1; 0x9b05688c2b3e6c1f; 0x1f83d9abfb41bd6b; 0x5be0cd19137e2179 ].

Definition bytes_of_string (s : string) : list Z :=
  map (fun c => Z.of_N (N_of_ascii c)) (list_ascii_of_string s).

(** The [n] low bytes of [x], most significant first. *)
Fixpoint be_bytes (n : nat) (x : Z) : list Z :=
  match n with
  | O => []
  | S k => be_bytes k (Z.shiftr x 8) ++ [x mod 256]
  end.

Definition be_word (bs : list Z) : Z :=
  fold_left (fun acc b => acc * 256 + b) bs 0.

(** The message, the bit 1, zeros up to 112 modulo 128 bytes, and the length
    in bits on 16 bytes. *)
Definition pad (msg : list Z) : list Z :=
  let len := Z.of_nat (List.length msg) in
  let zeros := Z.to_nat ((112 - (len + 1)) mod 128) in
  msg ++ [128] ++ repeat 0 zeros ++ be_bytes 16 (8 * len).

Fixpoint chunks (n : nat) (size : nat) (l : list Z) : list (list Z) :=
  match n with
  | O => []
  | S k => firstn size l :: chunks k size (skipn size l)
  end.

Definition words_of_block (block : list Z) : list Z :=
  map be_word (chunks 16 8 block).

(** The message schedule, newest word first: [rev_w] holds W[t-1], W[t-2],
    ... and [n] more words are added. *)
Fixpoint extend (n : nat) (rev_w : list Z) : list Z :=
  match n with
  | O => rev_w
  | S k =>
      let w :=
        add64 (add64 (sigma1 (nth 1 rev_w 0)) (nth 6 rev_w 0))
              (add64 (sigma0 (nth 14 rev_w 0)) (nth 15 rev_w 0)) in
      extend k (w :: rev_w)
  end.

Definition schedule (block : list Z) : list Z :=
  rev (extend 64 (rev (words_of_block block))).

Record regs : Type := mkRegs {
  ra : Z; rb : Z; rc : Z; rd : Z; re : Z; rf : Z; rg : Z; rh : Z
}.

Definition round (r : regs) (kw : Z * Z) : regs :=
  let t1 :=
    add64 (add64 (add64 (rh r) (Sigma1 (re r)))
                 (add64 (Ch (re r) (rf r) (rg r)) (fst kw))) (snd kw) in
  let t2 := add64 (Sigma0 (ra r)) (Maj (ra r) (rb r) (rc r)) in
  mkRegs (add64 t1 t2) (ra r) (rb r) (rc r) (add64 (rd r) t1)
         (re r) (rf r) (rg r).

Definition regs_of_list (h : list Z) : regs :=
  mkRegs (nth 0 h 0) (nth 1 h 0) (nth 2 h 0) (nth 3 h 0)
         (nth 4 h 0) (nth 5 h 0) (nth 6 h 0) (nth 7 h 0).

Definition list_of_regs (r : regs) : list Z :=
  [ra r; rb r; rc r; rd r; re r; rf r; rg r; rh r].

Definition compress (h : list Z) (block : list Z) : list Z :=
  let r := fold_left round (combine K (schedule block)) (regs_of_list h) in
  map (fun p => add64 (fst p) (snd p)) (combine h (list_of_regs r)).

Definition sha512 (msg : list Z) : list Z :=
  let padded := pad msg in
  let blocks := chunks (Nat.div (List.length padded) 128) 128 padded in
  flat_map (be_bytes 8) (fold_left compress blocks H0).

Definition block_size : nat := 128.

(** A key longer than a block is hashed first; the key is then filled with
    zeros up to the block. *)
Definition block_key (key : list Z) : list Z :=
  let k := if Nat.ltb block_size (List.length key) then sha512 key else key in
  k ++ repeat 0 (block_size - List.length k).

Definition hmac (key msg : list Z) : list Z :=
  let k := block_key key in
  let ipad := map (Z.lxor 54) k in
  let opad := map (Z.lxor 92) k in
  sha512 (opad ++ sha512 (ipad ++ msg)).

Definition hex_digit (d : Z) : ascii :=
  ascii_of_N (Z.to_N (if d <? 10 then 48 + d else 87 + d)).

Fixpoint hex (bs : list Z) : string :=
  match bs with
  | [] => EmptyString
  | b :: bs' => String (hex_digit (b / 16)) (String (hex_digit (b mod 16)) (hex bs'))
  end.

(** [hmac.new(key, msg, hashlib.sha512).hexdigest()] *)
Definition hexdigest (key msg : string) : string :=
  hex (hmac (bytes_of_string key) (bytes_of_string msg)).

End HmacSha512.

(** ** The program *)

Definition debug_statements : bool := false.

Section RunTask.

(** [secret_key] and [api_token] are read once from the secrets file or the
    environment ([get_secret]); [hexdigest key msg] is
    [hmac.new(key, msg, hashlib.sha512).hexdigest()]. *)
Variable secret_key : string.
Variable api_token : pyval.
Variable hexdigest : string -> string -> string.

Definition tfc_headers : headers :=
  [ ("Authorization", [Lit "Bearer "; Fmt api_token]);
    ("Content-Type", [Lit "application/vnd.api+json"]) ].

Definition apply_payload : pyval :=
  PDict [ ("data",
           PDict [ ("type", PStr "runs");
                   ("attributes",
                    PDict [ ("comment",
                             PStr "Automatically applying run triggered run") ]) ]) ].

Definition run_details_url (run_id : pyval) : fstring :=
  [Lit "https://app.terraform.io/api/v2/runs/"; Fmt run_id].

Definition apply_url (run_id : pyval) : fstring :=
  [Lit "https://app.terraform.io/api/v2/runs/"; Fmt run_id;
   Lit "/actions/apply"].

Definition workspace_url (workspace_id : pyval) : fstring :=
  [Lit "https://app.terraform.io/api/v2/workspaces/"; Fmt workspace_id].

(** *** process_queue *)

(** One turn of the [while True] loop, from the value of [prev_run_id] at
    its start; returns the value of [prev_run_id] at its end.  Every
    [continue] and the fall through at the end of the body return. *)
Definition process_queue_iteration (prev_run_id : pyval) : M pyval :=
  run_id <- queue_get ;;
  print [Lit "Processing "; Fmt run_id; Lit " from queue."] ;;
  (if py_eq prev_run_id run_id then
     print [Lit "Retrying the previous "; Fmt run_id;
            Lit ". Sleeping for 5 seconds"] ;;
     time_sleep 5
   else ret tt) ;;
  let prev_run_id := run_id in
  run_response <- requests (GET (run_details_url run_id) tfc_headers) ;;
  if negb (status_code run_response =? 200)%Z then
    print [Lit "Failed to get run details for "; Fmt run_id; Lit " - ";
           Fmt (PStr (text run_response))] ;;
    print [Lit "Removing "; Fmt run_id; Lit " from the processing queue."] ;;
    ret prev_run_id
  else
    run_response_json <- response_json run_response ;;
    d <- getitem run_response_json "data" ;;
    a <- getitem d "attributes" ;;
    st <- getitem a "status" ;;
    if py_eq st (PStr "planned_and_finished") then
      print [Fmt run_id;
             Lit " was planned and finished successfully. Removing from processing queue."] ;;
      ret prev_run_id
    else
      d <- getitem run_response_json "data" ;;
      a <- getitem d "attributes" ;;
      acts <- getitem a "actions" ;;
      c <- getitem acts "is-confirmable" ;;
      if py_eq c (PBool false) then
        print [Lit "Still waiting for "; Fmt run_id;
               Lit " to ask for plan confirmation."] ;;
        queue_put run_id ;;
        ret prev_run_id
      else
        apply_response <-
          requests (POST (apply_url run_id) tfc_headers apply_payload) ;;
        (if (status_code apply_response =? 202)%Z then
           print [Lit "Successfully applied run "; Fmt run_id]
         else if (status_code apply_response =? 409)%Z then
           print [Lit "Still waiting for "; Fmt run_id;
                  Lit " to ask for plan confirmation."] ;;
           queue_put run_id
         else
           print [Lit "Unexpected status code ";
                  Fmt (PInt (status_code apply_response));
                  Lit " for run "; Fmt run_id]) ;;
        ret prev_run_id.

(** The first [n] turns of the loop.  It stops early only where the code
    does: on an exception, or waiting on the empty queue. *)
Fixpoint process_queue_loop (n : nat) (prev_run_id : pyval) : M pyval :=
  match n with
  | O => ret prev_run_id
  | S k =>
      prev_run_id <- process_queue_iteration prev_run_id ;;
      process_queue_loop k prev_run_id
  end.

Definition process_queue (n : nat) : M pyval :=
  let prev_run_id := PNone in
  process_queue_loop n prev_run_id.

(** *** process_request *)

(** [request_hmac] is a header value: a [str], or [None] when the header is
    absent. *)
Definition opt_str (o : option string) : pyval :=
  match o with Some s => PStr s | None => PNone end.

Definition set_message (m : fstring) (a : attributes) : attributes :=
  mkAttributes (status a) (Some m).

Definition set_status (st : string) (a : attributes) : attributes :=
  mkAttributes st (message a).

Definition tfc_body (a : attributes) : task_results :=
  mkTaskResults "task-results" a.

(** [run_task_headers], from the value of [body['access_token']]. *)
Definition run_task_headers (access_token : pyval) : headers :=
  [ ("Authorization", [Lit "Bearer "; Fmt access_token]);
    ("Content-Type", [Lit "application/vnd.api+json"]) ].

(** The callback, as the code writes it at each of its exits:
    [patch_response = requests.patch(body.get("task_result_callback_url"),
    json.dumps(tfc_body), headers=run_task_headers)] and
    [return patch_response]. *)
Definition report (body : dict) (hdrs : headers) (a : attributes) :
    M (option Response) :=
  patch_response <-
    requests (PATCH (py_get body "task_result_callback_url")
                    (tfc_body a) hdrs) ;;
  ret (Some patch_response).

Definition process_request (body : dict) (body_raw : string)
    (request_hmac : option string) : M (option Response) :=
  access_token <- getitem (PDict body) "access_token" ;;
  let run_task_headers := run_task_headers access_token in
  let tfc_body_attributes := mkAttributes "failed" None in
  let report := report body run_task_headers in
  let generated_hmac := hexdigest secret_key body_raw in
  if negb (py_eq (opt_str request_hmac) (PStr generated_hmac)) then
    print [Lit "HMACs do not match."] ;;
    print [Lit "Request: "; Fmt (opt_str request_hmac)] ;;
    print [Lit "genearted: "; Fmt (PStr generated_hmac)] ;;
    report (set_status "failed"
              (set_message [Lit "Invalid HMAC."] tfc_body_attributes))
  else if negb (dict_mem body "task_result_callback_url") then
    print [Lit "task_result_callback_url not found in the request body."] ;;
    ret None
  else if negb (py_eq (py_get body "stage") (PStr "post_plan")) then
    report (set_status "passed"
              (set_message [Lit "Nothing to do. This is not a post_plan phase."]
                 tfc_body_attributes))
  else
    let run_id := py_get body "run_id" in
    if negb (truthy run_id) then
      print [Lit "Run ID not found in the request body."] ;;
      report (set_status "failed"
                (set_message [Lit "There was no run_id specified in the payload."]
                   tfc_body_attributes))
    else
      print [Lit "Processing message received from "; Fmt run_id] ;;
      run_response <- requests (GET (run_details_url run_id) tfc_headers) ;;
      if negb (status_code run_response =? 200)%Z then
        report (set_status "failed"
                  (set_message [Lit "Failed to get run details: ";
                                Fmt (PStr (text run_response))]
                     tfc_body_attributes))
      else
        run_response_json <- response_json run_response ;;
        d <- getitem run_response_json "data" ;;
        a <- getitem d "attributes" ;;
        source <- getitem a "source" ;;
        if negb (py_eq source (PStr "tfe-run-trigger")) then
          print [Lit "Nothing to do. "; Fmt run_id;
                 Lit " is not type 'tfe-run-trigger'."] ;;
          report (set_status "passed"
                    (set_message
                       [Lit "Nothing to do. This is not a run triggered run."]
                       tfc_body_attributes))
        else
          d <- getitem run_response_json "data" ;;
          rel <- getitem d "relationships" ;;
          ws <- getitem rel "workspace" ;;
          wd <- getitem ws "data" ;;
          workspace_id <- getitem wd "id" ;;
          workspace_response <-
            requests (GET (workspace_url workspace_id) tfc_headers) ;;
          if negb (status_code workspace_response =? 200)%Z then
            report (set_status "failed"
                      (set_message [Lit "Failed to get workspace details: ";
                                    Fmt (PStr (text workspace_response))]
                         tfc_body_attributes))
          else
            workspace_response_json <- response_json workspace_response ;;
            d <- getitem workspace_response_json "data" ;;
            a <- getitem d "attributes" ;;
            auto_apply <- getitem a "auto-apply" ;;
            if py_eq auto_apply (PBool false) then
              print [Lit "The auto-apply attribute is not enabled for this workspace."] ;;
              report (set_status "passed"
                        (set_message
                           [Lit "Nothing to do. Workspace is not configured for auto-apply"]
                           tfc_body_attributes))
            else
              queue_put run_id ;;
              report (set_status "passed"
                        (set_message [Lit "Added "; Fmt run_id;
                                      Lit " to the queue to be auto-applied when ready."]
                           tfc_body_attributes)).

(** *** run_function *)

(** [x.get(k)] on the parsed request body: only a dict has [get]. *)
Definition attr_get (v : pyval) (k : string) : M pyval :=
  match v with
  | PDict d => ret (py_get d k)
  | _ => raise AttributeError
  end.

(** [Thread(target=process_request, args=...).start()] *)
Definition thread_start (args : worker_args) : M unit :=
  fun s => (Ret tt, s, [ThreadStart args]).

(** The dict behind a value on which [get] succeeded. *)
Definition as_dict (v : pyval) : dict :=
  match v with PDict d => d | _ => [] end.

Definition run_function (request : flask_request) : M Flask_Response :=
  let req_data_json := get_json request in
  (if debug_statements then
     print [Dumps req_data_json] ;;
     print [Fmt (PStr (headers_str request))]
   else ret tt) ;;
  level <- attr_get req_data_json "task_result_enforcement_level" ;;
  (if negb (py_eq level (PStr "test")) then
     thread_start (mkArgs (as_dict req_data_json) (data request)
                     (headers_get request "X-Tfc-Task-Signature"))
   else ret tt) ;;
  ret (mkFlaskResponse 200).

(** What a worker thread runs. *)
Definition worker (args : worker_args) : M (option Response) :=
  process_request (arg_body args) (arg_body_raw args) (arg_request_hmac args).

End RunTask.

(** *** get_secret and the start of the module *)

(** What the module reads of the machine when it is imported: the lines of
    [/etc/secrets/.env] as Python yields them, each with its end of line,
    when the file is there; and [os.environ]. *)
Record host : Type := mkHost {
  secrets_file : option (list string);
  environ : string -> option string
}.

(** What the import of the module can raise: [ValueError], from [dict] on a
    line that has no ['='], or an exception of the program. *)
Inductive import_exn : Type :=
| ValueError
| Raised (e : exn).

Inductive outcome (A : Type) : Type :=
| Returns (a : A)
| Raises (e : import_exn).
Arguments Returns {A} a.
Arguments Raises {A} e.

(** [c.isspace()], on the UTF-8 bytes of the character: the characters that
    [str.strip()] removes. *)
Definition space1 (a : N) : bool :=
  ((9 <=? a) && (a <=? 13) || (28 <=? a) && (a <=? 32))%N.

Definition space2 (a b : N) : bool :=
  ((a =? 194) && ((b =? 133) || (b =? 160)))%N.

Definition space3 (a b c : N) : bool :=
  ((a =? 225) && (b =? 154) && (c =? 128) ||
   (a =? 226) && (b =? 128) &&
     ((128 <=? c) && (c <=? 138) || (c =? 168) || (c =? 169) || (c =? 175)) ||
   (a =? 226) && (b =? 129) && (c =? 159) ||
   (a =? 227) && (b =? 128) && (c =? 128))%N.

(** The bytes left when the white space at the front is dropped; with
    [back], the bytes are read from the end of the string. *)
Fixpoint skip_spaces (back : bool) (l : list N) : list N :=
  match l with
  | [] => []
  | a :: l1 =>
      if space1 a then skip_spaces back l1
      else
        match l1 with
        | [] => l
        | b :: l2 =>
            if (if back then space2 b a else space2 a b)
            then skip_spaces back l2
            else
              match l2 with
              | [] => l
              | c :: l3 =>
                  if (if back then space3 c b a else space3 a b c)
                  then skip_spaces back l3
                  else l
              end
        end
  end.

Definition codes (s : string) : list N :=
  map N_of_ascii (list_ascii_of_string s).

Definition of_codes (l : list N) : string :=
  string_of_list_ascii (map ascii_of_N l).

(** [s.strip()] *)
Definition strip (s : string) : string :=
  of_codes (rev (skip_spaces true (rev (skip_spaces false (codes s))))).

(** [s.startswith('#')] *)
Definition is_comment (s : string) : bool :=
  match s with
  | String c _ => (c =? "#")%char
  | EmptyString => false
  end.

(** [s.split('=', 1)]: one string, or the text before the first ['='] and
    the text after it. *)
Fixpoint split_eq (s : string) : list string :=
  match s with
  | EmptyString => [EmptyString]
  | String c s' =>
      if (c =? "=")%char then [EmptyString; s']
      else
        match split_eq s' with
        | [k; v] => [String c k; v]
        | _ => [s]
        end
  end.

(** [d[k] = v] on a dict: the key keeps its place when it is there. *)
Fixpoint dict_set (d : dict) (k : string) (v : pyval) : dict :=
  match d with
  | [] => [(k, v)]
  | (k', v') :: d' =>
      if String.eqb k' k then (k', v) :: d'
      else (k', v') :: dict_set d' k v
  end.

(** The filter of the generator: [line.strip() and not
    line.startswith('#')]. *)
Definition kept (line : string) : bool :=
  negb (strip line =? EmptyString) && negb (is_comment line).

(** [dict(line.strip().split('=', 1) for line in f if ...)], from the dict
    built so far. *)
Fixpoint read_secrets (lines : list string) (secrets : dict) : outcome dict :=
  match lines with
  | [] => Returns secrets
  | line :: rest =>
      if kept line then
        match split_eq (strip line) with
        | [k; v] => read_secrets rest (dict_set secrets k (PStr v))
        | _ => Raises ValueError
        end
      else read_secrets rest secrets
  end.

(** [get_secret(secret_name)]: what it prints and what it returns. *)
Definition get_secret (h : host) (secret_name : string) :
    list event * outcome pyval :=
  match secrets_file h with
  | Some lines =>
      ([Print [Lit "Found secrets file."]],
       match read_secrets lines [] with
       | Returns secrets => Returns (py_get secrets secret_name)
       | Raises e => Raises e
       end)
  | None => ([], Returns (opt_str (environ h secret_name)))
  end.

(** The globals that the module sets when it is imported. *)
Record globals : Type := mkGlobals {
  g_secret_key : string;
  g_api_token : pyval
}.

(** [bytes(v, "utf-8")]: the bytes of a [str]; [None] has none. *)
Definition bytes_utf8 (v : pyval) : outcome string :=
  match v with
  | PStr s => Returns s
  | _ => Raises (Raised TypeError)
  end.

(** The start of the module: [secret_key = bytes(get_secret("HMAC_SECRET"),
    "utf-8")], then [api_token = get_secret("TFC_API_TOKEN")]. *)
Definition load_globals (h : host) : list event * outcome globals :=
  let (ev1, r1) := get_secret h "HMAC_SECRET" in
  match r1 with
  | Raises e => (ev1, Raises e)
  | Returns v =>
      match bytes_utf8 v with
      | Raises e => (ev1, Raises e)
      | Returns secret_key =>
          let (ev2, r2) := get_secret h "TFC_API_TOKEN" in
          match r2 with
          | Raises e => (ev1 ++ ev2, Raises e)
          | Returns api_token =>
              (ev1 ++ ev2, Returns (mkGlobals secret_key api_token))
          end
      end
  end.


(** ** What a list of events shows *)

Definition puts (evs : list event) : list pyval :=
  flat_map (fun e => match e with QueuePut v => [v] | _ => [] end) evs.

Definition sleeps (evs : list event) : list Z :=
  flat_map (fun e => match e with Sleep z => [z] | _ => [] end) evs.

Definition http_calls (evs : list event) : list request :=
  flat_map (fun e => match e with Http rq _ => [rq] | _ => [] end) evs.

(** The callbacks: where each verdict was sent and what it said. *)
Definition verdicts (evs : list event) : list (pyval * task_results) :=
  flat_map (fun e => match e with
                     | Http (PATCH url body _) _ => [(url, body)]
                     | _ => []
                     end) evs.

Definition prints (evs : list event) : list fstring :=
  flat_map (fun e => match e with Print line => [line] | _ => [] end) evs.

(** The texts an event sends out of the process: a printed line, or the URL,
    the header values and the message of a request. *)
Definition outputs (e : event) : list fstring :=
  match e with
  | Print line => [line]
  | Http (GET url hdrs) _ => url :: map snd hdrs
  | Http (POST url hdrs _) _ => url :: map snd hdrs
  | Http (PATCH url body hdrs) _ =>
      [Fmt url] ::
      match message (data_attributes body) with
      | Some m => [m]
      | None => []
      end ++ map snd hdrs
  | _ => []
  end.

(** The string [d] is interpolated in some output. *)
Definition leaks (d : string) (evs : list event) : Prop :=
  exists e line, In e evs /\ In line (outputs e) /\ In (Fmt (PStr d)) line.

Definition spawned (evs : list event) : list worker_args :=
  flat_map (fun e => match e with ThreadStart a => [a] | _ => [] end) evs.

(** The apply calls, with the run identifier of each and its reply.  The
    program posts to apply URLs only. *)
Definition applied (evs : list event) : list (pyval * reply) :=
  flat_map (fun e => match e with
                     | Http (POST [Lit _; Fmt run_id; Lit _] _ _) rp =>
                         [(run_id, rp)]
                     | _ => []
                     end) evs.

Definition accepted (rp : reply) : bool :=
  match rp with
  | Answer r => (status_code r =? 202)%Z
  | Fault _ => false
  end.

Definition conflicted (rp : reply) : bool :=
  match rp with
  | Answer r => (status_code r =? 409)%Z
  | Fault _ => false
  end.

(** The apply calls that were accepted. *)
Definition successes (evs : list event) : list (pyval * reply) :=
  filter (fun c => accepted (snd c)) (applied evs).

(** No apply call for an identifier follows an accepted one. *)
Fixpoint settled (calls : list (pyval * reply)) : Prop :=
  match calls with
  | [] => True
  | (run_id, rp) :: rest =>
      (accepted rp = true -> ~ In run_id (map fst rest)) /\ settled rest
  end.

(** What the reply to a fetch says: [json()[data][attributes]] and the
    values under it. *)
Definition run_attributes (r : Response) : option pyval :=
  match json r with
  | Some v =>
      match subscript v "data" with
      | Ok d =>
          match subscript d "attributes" with
          | Ok a => Some a
          | _ => None
          end
      | _ => None
      end
  | None => None
  end.

Definition attribute (r : Response) (k : string) : option pyval :=
  match run_attributes r with
  | Some a => match subscript a k with Ok x => Some x | _ => None end
  | None => None
  end.

Definition is_confirmable (r : Response) : option pyval :=
  match attribute r "actions" with
  | Some acts =>
      match subscript acts "is-confirmable" with
      | Ok c => Some c
      | _ => None
      end
  | None => None
  end.

Definition workspace_id_of (r : Response) : option pyval :=
  match json r with
  | Some v =>
      match subscript v "data" with
      | Ok d =>
          match subscript d "relationships" with
          | Ok rel =>
              match subscript rel "workspace" with
              | Ok ws =>
                  match subscript ws "data" with
                  | Ok wd =>
                      match subscript wd "id" with
                      | Ok i => Some i
                      | _ => None
                      end
                  | _ => None
                  end
              | _ => None
              end
          | _ => None
          end
      | _ => None
      end
  | None => None
  end.

(** ** The vocabulary of the worker *)

(** A signature is accepted when it is the digest of the raw body. *)
Definition authentic (secret_key : string)
    (hexdigest : string -> string -> string)
    (body_raw : string) (request_hmac : option string) : Prop :=
  request_hmac = Some (hexdigest secret_key body_raw).

Definition verdict (st : string) (msg : fstring) : task_results :=
  tfc_body (mkAttributes st (Some msg)).

(** The callback of an event: one PATCH to its callback target. *)
Definition callback (body : dict) (access_token : pyval) (v : task_results)
    (rp : reply) : event :=
  Http (PATCH (py_get body "task_result_callback_url") v
          (run_task_headers access_token)) rp.

(** What the value returned by the worker is, from the answer to the
    callback. *)
Definition returned (rp : reply) : result (option Response) :=
  match rp with
  | Answer r => Ret (Some r)
  | Fault e => Raise e
  end.

(** The next reply of the script. *)
Definition next_reply (net : list reply) : reply :=
  match net with
  | [] => Fault ConnectionError
  | rp :: _ => rp
  end.

(** An authentic event of the post-plan stage that can be answered: it has
    its token and a callback target. *)
Definition post_plan_event (secret_key : string)
    (hexdigest : string -> string -> string)
    (body : dict) (body_raw : string) (request_hmac : option string)
    (access_token : pyval) : Prop :=
  dict_get body "access_token" = Some access_token /\
  authentic secret_key hexdigest body_raw request_hmac /\
  dict_mem body "task_result_callback_url" = true /\
  py_eq (py_get body "stage") (PStr "post_plan") = true.

(** The request is a GET or a PATCH. *)
Definition not_a_post (rq : request) : Prop :=
  match rq with
  | POST _ _ _ => False
  | _ => True
  end.

(** ** The vocabulary of the secrets file *)

(** The string has an ['=']. *)
Definition has_eq (s : string) : bool :=
  existsb (fun c => (c =? "=")%char) (list_ascii_of_string s).

(** The entry that a line of the secrets file gives: the key and the value,
    when the line is kept and has an ['=']. *)
Definition entry_of (line : string) : option (string * string) :=
  if kept line then
    match split_eq (strip line) with
    | [k; v] => Some (k, v)
    | _ => None
    end
  else None.

Definition key_of (line : string) : option string :=
  option_map fst (entry_of line).

(** A line that [dict] accepts: blank, a comment, or with an ['=']. *)
Definition well_formed (line : string) : Prop :=
  kept line = true -> has_eq (strip line) = true.

(** The identifiers taken from the queue, in order. *)
Definition taken (evs : list event) : list pyval :=
  flat_map (fun e => match e with QueueGet v => [v] | _ => [] end) evs.

(** The headers of a request. *)
Definition headers_of (rq : request) : headers :=
  match rq with
  | GET _ hdrs => hdrs
  | POST _ hdrs _ => hdrs
  | PATCH _ _ hdrs => hdrs
  end.

(** ** Concrete events and replies

    The data of the examples at the end of the file.  [dumps] is
    [json.dumps] on values whose strings need no escape; it writes the raw
    bodies of the events. *)

Definition dq : string :=
  String (Ascii false true false false false true false false) EmptyString.

Definition quoted (s : string) : string := (dq ++ s ++ dq)%string.

Definition decimal (n : Z) : string := NilZero.string_of_int (Z.to_int n).

Fixpoint dumps (v : pyval) : string :=
  match v with
  | PNone => "null"
  | PBool true => "true"
  | PBool false => "false"
  | PInt n => decimal n
  | PStr s => quoted s
  | PList l => ("[" ++ String.concat ", " (map dumps l) ++ "]")%string
  | PDict d =>
      ("{" ++
       String.concat ", "
         (map (fun kv => quoted (fst kv) ++ ": " ++ dumps (snd kv)) d) ++
       "}")%string
  end.

Definition ex_key : string := "s3cr3t".
Definition ex_api_token : pyval := PStr "tfc-api-token".
Definition ex_run : pyval := PStr "run-1".

Definition ex_body (stage : string) : dict :=
  [ ("task_result_enforcement_level", PStr "mandatory");
    ("access_token", PStr "event-token");
    ("task_result_callback_url",
     PStr "https://app.terraform.io/api/v2/task-results/tr-1/callback");
    ("stage", PStr stage);
    ("run_id", ex_run) ].

Definition ex_raw (stage : string) : string := dumps (PDict (ex_body stage)).

Definition ex_signature (stage : string) : option string :=
  Some (HmacSha512.hexdigest ex_key (ex_raw stage)).

(** The same event without its callback target. *)
Definition ex_body_no_callback : dict :=
  [ ("access_token", PStr "event-token");
    ("stage", PStr "post_plan");
    ("run_id", ex_run) ].

Definition ex_run_json (st source : string) (confirmable : bool) : pyval :=
  PDict
    [ ("data",
       PDict
         [ ("id", ex_run);
           ("attributes",
            PDict [ ("status", PStr st);
                    ("source", PStr source);
                    ("actions",
                     PDict [("is-confirmable", PBool confirmable)]) ]);
           ("relationships",
            PDict [ ("workspace",
                     PDict [("data", PDict [("id", PStr "ws-1")])]) ]) ]) ].

Definition ex_run_reply (st : string) (confirmable : bool) : Response :=
  let j := ex_run_json st "tfe-run-trigger" confirmable in
  mkResponse 200 (dumps j) (Some j).

Definition ex_workspace_reply (auto_apply : bool) : Response :=
  let j :=
    PDict [ ("data",
             PDict [ ("id", PStr "ws-1");
                     ("attributes",
                      PDict [("auto-apply", PBool auto_apply)]) ]) ] in
  mkResponse 200 (dumps j) (Some j).

Definition ex_reply (code : Z) : Response :=
  mkResponse code (dumps (PDict [])) (Some (PDict [])).

Definition ex_request (level : pyval) : flask_request :=
  let body := ("task_result_enforcement_level", level) ::
              tl (ex_body "post_plan") in
  mkRequest (PDict body) (dumps (PDict body))
    (fun h => if (h =? "X-Tfc-Task-Signature")%string
              then Some "deadbeef" else None)
    "X-Tfc-Task-Signature: deadbeef".

Definition nl : string := String "010"%char EmptyString.

(** A secrets file: a comment, a blank line and two entries, the second
    with an ['='] in its value. *)
Definition ex_secret_lines : list string :=
  [ ("# secrets of the run task" ++ nl)%string;
    nl;
    ("HMAC_SECRET=s3cr3t" ++ nl)%string;
    ("TFC_API_TOKEN=abc=def" ++ nl)%string ].

(** An environment that only holds the HMAC secret. *)
Definition ex_environ (name : string) : option string :=
  if (name =? "HMAC_SECRET")%string then Some "from-env" else None.

(** The event of a stage without its [access_token]. *)
Definition ex_body_no_token (stage : string) : dict :=
  [ ("task_result_enforcement_level", PStr "mandatory");
    ("task_result_callback_url",
     PStr "https://app.terraform.io/api/v2/task-results/tr-1/callback");
    ("stage", PStr stage);
    ("run_id", ex_run) ].

(** The [post_plan] event with another value of [run_id]. *)
Definition ex_body_run (run_id : pyval) : dict :=
  [ ("task_result_enforcement_level", PStr "mandatory");
    ("access_token", PStr "event-token");
    ("task_result_callback_url",
     PStr "https://app.terraform.io/api/v2/task-results/tr-1/callback");
    ("stage", PStr "post_plan");
    ("run_id", run_id) ].

(** A reply to the fetch of a run that was started from the UI. *)
Definition ex_ui_run_reply : Response :=
  let j := ex_run_json "planned" "tfe-ui" false in
  mkResponse 200 (dumps j) (Some j).

(** A reply to the fetch of a workspace whose [auto-apply] is null. *)
Definition ex_workspace_null_reply : Response :=
  let j :=
    PDict [ ("data",
             PDict [ ("id", PStr "ws-1");
                     ("attributes", PDict [("auto-apply", PNone)]) ]) ] in
  mkResponse 200 (dumps j) (Some j).

(** A reply that is not JSON. *)
Definition ex_html_reply (code : Z) : Response :=
  mkResponse code "Bad Gateway" None.

(** ** Running the code symbolically *)

Arguments subscript : simpl never.
Arguments py_get : simpl never.
Arguments dict_mem : simpl never.
Arguments truthy : simpl never.
Arguments py_eq : simpl never.
Arguments tfc_headers : simpl never.
Arguments apply_payload : simpl never.
Arguments run_details_url : simpl never.
Arguments apply_url : simpl never.
Arguments workspace_url : simpl never.
Arguments Z.eqb : simpl never.

Ltac run_in H :=
  unfold bind, ret, raise, lift, getitem, print, time_sleep, requests,
    queue_put, queue_get, response_json, thread_start, attr_get in H;
  cbn in H.

Ltac no_match x :=
  lazymatch x with
  | context [match _ with _ => _ end] => fail
  | _ => idtac
  end.

Ltac split_match H :=
  match type of H with
  | context [match ?x with _ => _ end] =>
      no_match x; let E := fresh "E" in destruct x eqn:E
  end.

(** ** The scheduler *)

Section Scheduler.

Variable api_token : pyval.

Abbreviation iteration := (process_queue_iteration api_token).
Abbreviation loop := (process_queue_loop api_token).

Definition fetch (run_id : pyval) : request :=
  GET (run_details_url run_id) (tfc_headers api_token).

Definition apply_run (run_id : pyval) : request :=
  POST (apply_url run_id) (tfc_headers api_token) apply_payload.

(** The states of a run as the scheduler tells them apart. *)
Definition finished (r : Response) : Prop :=
  exists st, attribute r "status" = Some st /\
             py_eq st (PStr "planned_and_finished") = true.

Definition pending (r : Response) : Prop :=
  exists st, attribute r "status" = Some st /\
             py_eq st (PStr "planned_and_finished") = false.

Definition waiting (r : Response) : Prop :=
  pending r /\
  exists c, is_confirmable r = Some c /\ py_eq c (PBool false) = true.

Definition confirmable (r : Response) : Prop :=
  pending r /\
  exists c, is_confirmable r = Some c /\ py_eq c (PBool false) = false.

(** The delay of a turn: taken when the identifier is the previous one. *)
Definition backoff (prev_run_id run_id : pyval) : list event :=
  if py_eq prev_run_id run_id then
    [ Print [Lit "Retrying the previous "; Fmt run_id;
             Lit ". Sleeping for 5 seconds"];
      Sleep 5 ]
  else [].

(** The start of a turn, up to the answer to the fetch. *)
Definition polled (prev_run_id run_id : pyval) (rp : reply) : list event :=
  QueueGet run_id ::
  Print [Lit "Processing "; Fmt run_id; Lit " from queue."] ::
  backoff prev_run_id run_id ++ [Http (fetch run_id) rp].

Definition still_waiting (run_id : pyval) : event :=
  Print [Lit "Still waiting for "; Fmt run_id;
         Lit " to ask for plan confirmation."].

(** The turns that run to the end of the loop body, one constructor for each
    way through it: the queue after the head [run_id] was taken, the script
    the turn reads, the state it leaves and the events it performs. *)
Inductive turn (prev run_id : pyval) (q : list pyval) :
    list reply -> state -> list event -> Prop :=
| turn_fetch_failed r net :
    status_code r <> 200%Z ->
    turn prev run_id q (Answer r :: net) (mkState q net)
      (polled prev run_id (Answer r) ++
       [ Print [Lit "Failed to get run details for "; Fmt run_id; Lit " - ";
                Fmt (PStr (text r))];
         Print [Lit "Removing "; Fmt run_id;
                Lit " from the processing queue."] ])
| turn_finished r net :
    status_code r = 200%Z -> finished r ->
    turn prev run_id q (Answer r :: net) (mkState q net)
      (polled prev run_id (Answer r) ++
       [ Print [Fmt run_id;
                Lit " was planned and finished successfully. Removing from processing queue."] ])
| turn_waiting r net :
    status_code r = 200%Z -> waiting r ->
    turn prev run_id q (Answer r :: net) (mkState (q ++ [run_id]) net)
      (polled prev run_id (Answer r) ++
       [ still_waiting run_id; QueuePut run_id ])
| turn_accepted r r' net :
    status_code r = 200%Z -> confirmable r -> status_code r' = 202%Z ->
    turn prev run_id q (Answer r :: Answer r' :: net) (mkState q net)
      (polled prev run_id (Answer r) ++
       [ Http (apply_run run_id) (Answer r');
         Print [Lit "Successfully applied run "; Fmt run_id] ])
| turn_conflict r r' net :
    status_code r = 200%Z -> confirmable r -> status_code r' = 409%Z ->
    turn prev run_id q (Answer r :: Answer r' :: net)
      (mkState (q ++ [run_id]) net)
      (polled prev run_id (Answer r) ++
       [ Http (apply_run run_id) (Answer r');
         still_waiting run_id; QueuePut run_id ])
| turn_rejected r r' net :
    status_code r = 200%Z -> confirmable r ->
    status_code r' <> 202%Z -> status_code r' <> 409%Z ->
    turn prev run_id q (Answer r :: Answer r' :: net) (mkState q net)
      (polled prev run_id (Answer r) ++
       [ Http (apply_run run_id) (Answer r');
         Print [Lit "Unexpected status code "; Fmt (PInt (status_code r'));
                Lit " for run "; Fmt run_id] ]).

(** What the events of the scheduler say about an identifier. *)
Definition mentioned (run_id : pyval) (evs : list event) : Prop :=
  In run_id (map fst (applied evs)) \/ In run_id (puts evs) \/
  In (fetch run_id) (http_calls evs) \/ In (apply_run run_id) (http_calls evs).

Definition answered (evs : list event) (rq : request) (r : Response) : Prop :=
  In (Http rq (Answer r)) evs.

Definition fetch_failed (run_id : pyval) (evs : list event) : Prop :=
  exists r, answered evs (fetch run_id) r /\ status_code r <> 200%Z.

Definition self_resolved (run_id : pyval) (evs : list event) : Prop :=
  exists r, answered evs (fetch run_id) r /\ status_code r = 200%Z /\
            finished r.

Definition not_yet_confirmable (run_id : pyval) (evs : list event) : Prop :=
  exists r, answered evs (fetch run_id) r /\ status_code r = 200%Z /\
            waiting r.

Definition apply_accepted (run_id : pyval) (evs : list event) : Prop :=
  exists r, answered evs (apply_run run_id) r /\ status_code r = 202%Z.

Definition apply_conflict (run_id : pyval) (evs : list event) : Prop :=
  exists r, answered evs (apply_run run_id) r /\ status_code r = 409%Z.

Definition apply_rejected (run_id : pyval) (evs : list event) : Prop :=
  exists r, answered evs (apply_run run_id) r /\
            status_code r <> 202%Z /\ status_code r <> 409%Z.

(** The rule under test: of a turn that runs to its end, the entry leaves
    the queue exactly in the cases [terminal], and is back at the tail in
    every other case. *)
Definition removed_only_when (terminal : pyval -> list event -> Prop)
    (prev : pyval) (s : state) : Prop :=
  forall run_id q p s' evs,
    run_ids_queue s = run_id :: q ->
    iteration prev s = (Ret p, s', evs) ->
    (run_ids_queue s' = q <-> terminal run_id evs) /\
    (~ terminal run_id evs -> run_ids_queue s' = q ++ [run_id]).

(** The three cases of the invariant as it is worded. *)
Definition terminal_as_worded (run_id : pyval) (evs : list event) : Prop :=
  apply_accepted run_id evs \/ self_resolved run_id evs \/
  fetch_failed run_id evs.

(** The four cases of the code: the three above, and an apply call answered
    by anything but 202 or 409. *)
Definition terminal (run_id : pyval) (evs : list event) : Prop :=
  terminal_as_worded run_id evs \/ apply_rejected run_id evs.

(** A round of waiting: the fetch says the run is not confirmable yet, or
    it says confirmable and the apply call is answered 409. *)
Inductive round : Type :=
| NotYet (r : Response)
| Conflict (r r' : Response).

Definition round_ok (rd : round) : Prop :=
  match rd with
  | NotYet r => status_code r = 200%Z /\ waiting r
  | Conflict r r' =>
      status_code r = 200%Z /\ confirmable r /\ status_code r' = 409%Z
  end.

Definition replies (rd : round) : list reply :=
  match rd with
  | NotYet r => [Answer r]
  | Conflict r r' => [Answer r; Answer r']
  end.

Definition script (rds : list round) : list reply := flat_map replies rds.

(** While apply answers 409, the entry goes to the tail. *)
Definition conflict_requeues_at_tail : Prop :=
  forall prev run_id q r r' net,
    status_code r = 200%Z -> confirmable r -> status_code r' = 409%Z ->
    exists evs,
      iteration prev (mkState (run_id :: q) (Answer r :: Answer r' :: net)) =
        (Ret run_id, mkState (q ++ [run_id]) net, evs) /\
      puts evs = [run_id].

(** A lone entry that waits for [N] rounds and is then accepted: the
    scheduler has put it back [N] times, exactly one apply call succeeded,
    and the queue is empty, however many turns follow. *)
Definition rounds_then_one_apply : Prop :=
  forall prev run_id rds r r' net k,
    Forall round_ok rds ->
    status_code r = 200%Z -> confirmable r -> status_code r' = 202%Z ->
    exists res evs,
      loop (List.length rds + 1 + k) prev
        (mkState [run_id] (script rds ++ Answer r :: Answer r' :: net)) =
        (res, mkState [] net, evs) /\
      successes evs = [(run_id, Answer r')] /\
      puts evs = repeat run_id (List.length rds).

(** *** Events and values *)

Lemma puts_app a b : puts (a ++ b) = puts a ++ puts b.
Proof. apply flat_map_app. Qed.

Lemma applied_app a b : applied (a ++ b) = applied a ++ applied b.
Proof. apply flat_map_app. Qed.

Lemma successes_app a b : successes (a ++ b) = successes a ++ successes b.
Proof. unfold successes. now rewrite applied_app, filter_app. Qed.

Lemma sleeps_app a b : sleeps (a ++ b) = sleeps a ++ sleeps b.
Proof. apply flat_map_app. Qed.

Lemma http_calls_app a b : http_calls (a ++ b) = http_calls a ++ http_calls b.
Proof. apply flat_map_app. Qed.

Lemma py_eq_str a b : py_eq (PStr a) (PStr b) = true <-> a = b.
Proof. unfold py_eq. apply String.eqb_eq. Qed.

Lemma settled_app a b :
  settled a -> settled b ->
  (forall run_id rp, In (run_id, rp) a -> accepted rp = true ->
                     ~ In run_id (map fst b)) ->
  settled (a ++ b).
Proof.
  induction a as [|[i rp] a IH]; intros Ha Hb Hab; cbn; [exact Hb|].
  destruct Ha as [Hi Ha]. split.
  - intros Hacc. rewrite map_app, in_app_iff. intros [H|H].
    + now apply Hi.
    + apply (Hab i rp); [now left|exact Hacc|exact H].
  - apply IH; auto. intros j rq Hin. apply Hab. now right.
Qed.

(** On the empty queue the loop waits: nothing happens. *)
Lemma iteration_empty prev net :
  iteration prev (mkState [] net) = (Block, mkState [] net, []).
Proof. reflexivity. Qed.

Ltac run_iteration H :=
  unfold process_queue_iteration in H; run_in H;
  repeat (split_match H; cbn in H; try discriminate);
  inversion H; subst; clear H.

Ltac z_tests :=
  repeat match goal with
    | H : negb _ = true |- _ => apply negb_true_iff in H
    | H : negb _ = false |- _ => apply negb_false_iff in H
    | H : (_ =? _)%Z = true |- _ => apply Z.eqb_eq in H
    | H : (_ =? _)%Z = false |- _ => apply Z.eqb_neq in H
    end.

Ltac read_reply :=
  unfold waiting, confirmable, finished, pending, is_confirmable, attribute,
    run_attributes;
  repeat match goal with
    | E : ?x = _ |- context [match ?x with _ => _ end] =>
        rewrite E; cbv beta iota
    end.

Lemma turn_cast prev run_id q net s evs evs' :
  turn prev run_id q net s evs -> evs = evs' ->
  turn prev run_id q net s evs'.
Proof. now intros H <-. Qed.

Ltac by_turn c :=
  eapply turn_cast;
  [ eapply c; try eassumption; read_reply; eauto 10
  | unfold polled, backoff, fetch, apply_run, still_waiting;
    match goal with E : py_eq _ _ = _ |- _ => rewrite E end; reflexivity ].

Lemma iteration_turn prev run_id q net p s' evs :
  iteration prev (mkState (run_id :: q) net) = (Ret p, s', evs) ->
  p = run_id /\ turn prev run_id q net s' evs.
Proof.
  intros H. run_iteration H; z_tests; (split; [reflexivity|]).
  all: first [ solve [by_turn turn_fetch_failed]
             | solve [by_turn turn_finished]
             | solve [by_turn turn_waiting]
             | solve [by_turn turn_accepted]
             | solve [by_turn turn_conflict]
             | solve [by_turn turn_rejected] ].
Qed.

Ltac read_hyps :=
  unfold waiting, confirmable, finished, pending, is_confirmable, attribute,
    run_attributes in *;
  repeat match goal with
    | H : _ /\ _ |- _ => destruct H
    | H : exists _, _ |- _ => destruct H
    end;
  repeat match goal with
    | E : ?x = _, H : context [match ?x with _ => _ end] |- _ =>
        rewrite E in H; cbv beta iota in H
    end;
  repeat match goal with
    | H : Some _ = Some _ |- _ => injection H as <-
    end.

Lemma turn_iteration prev run_id q net s' evs :
  turn prev run_id q net s' evs ->
  iteration prev (mkState (run_id :: q) net) = (Ret run_id, s', evs).
Proof.
  intros T.
  destruct (iteration prev (mkState (run_id :: q) net)) as [[res s''] evs']
    eqn:H.
  destruct T; run_iteration H; z_tests; read_hyps;
    try discriminate; try congruence.
  all: unfold polled, backoff, fetch, apply_run, still_waiting;
    match goal with E : py_eq _ _ = _ |- _ => rewrite E end;
    reflexivity.
Qed.

(** One turn on a queue whose head is [run_id], however it ends: the entry
    is either gone or back at the tail; the turn calls the fetch of [run_id]
    and at most its apply, and an accepted apply leaves the entry out. *)
Lemma iteration_popped prev run_id q net res s' evs :
  iteration prev (mkState (run_id :: q) net) = (res, s', evs) ->
  (run_ids_queue s' = q /\ puts evs = [] \/
   run_ids_queue s' = q ++ [run_id] /\ puts evs = [run_id]) /\
  (applied evs = [] /\ http_calls evs = [fetch run_id] \/
   exists rp, applied evs = [(run_id, rp)] /\
              http_calls evs = [fetch run_id; apply_run run_id] /\
              (accepted rp = true -> run_ids_queue s' = q) /\
              (conflicted rp = true -> puts evs = [run_id])) /\
  (forall p, res = Ret p -> p = run_id) /\
  res <> Block.
Proof.
  intros H. run_iteration H.
  all: cbn; unfold apply_url; cbn.
  all: repeat split; try (intros ? [=]; auto); try discriminate; auto.
  all: right; eexists; repeat split; cbn; intros; z_tests; congruence.
Qed.

(** *** The loop *)

Lemma loop_S n prev s :
  loop (S n) prev s =
  match iteration prev s with
  | (Ret p, s1, ev1) =>
      match loop n p s1 with (r, s2, ev2) => (r, s2, ev1 ++ ev2) end
  | (Raise e, s1, ev1) => (Raise e, s1, ev1)
  | (Block, s1, ev1) => (Block, s1, ev1)
  end.
Proof. reflexivity. Qed.

Lemma mentioned_app run_id a b :
  mentioned run_id (a ++ b) <-> mentioned run_id a \/ mentioned run_id b.
Proof.
  unfold mentioned.
  rewrite applied_app, puts_app, http_calls_app, map_app, !in_app_iff.
  tauto.
Qed.

Lemma mentioned_nil run_id : ~ mentioned run_id [].
Proof. intros [[]|[[]|[[]|[]]]]. Qed.

(** A turn mentions the head of the queue only. *)
Lemma iteration_mentions prev run_id q net res s' evs other :
  iteration prev (mkState (run_id :: q) net) = (res, s', evs) ->
  mentioned other evs -> other = run_id.
Proof.
  intros H M. apply iteration_popped in H.
  destruct H as ([[_ P]|[_ P]] & [[A C]|(rp & A & C & _ & _)] & _);
    unfold mentioned in M; rewrite P, A, C in M; cbn in M;
    unfold fetch, apply_run, run_details_url, apply_url in M;
    intuition congruence.
Qed.

Lemma back_in_queue (run_id : pyval) q q' :
  q' = q \/ q' = q ++ [run_id] ->
  incl q' (run_id :: q) /\ (NoDup (run_id :: q) -> NoDup q').
Proof.
  intros [->| ->]; split.
  - apply incl_tl, incl_refl.
  - now inversion 1.
  - intros x Hx. apply in_app_iff in Hx. cbn in *. tauto.
  - apply Permutation_NoDup, Permutation_cons_append.
Qed.

(** The loop only takes from the queue what is in it: the entries it leaves
    and the identifiers it mentions come from the queue it started on, and
    it makes no duplicate. *)
Lemma loop_from_queue n : forall prev s res s' evs,
  loop n prev s = (res, s', evs) ->
  incl (run_ids_queue s') (run_ids_queue s) /\
  (NoDup (run_ids_queue s) -> NoDup (run_ids_queue s')) /\
  (forall run_id, mentioned run_id evs -> In run_id (run_ids_queue s)).
Proof.
  induction n as [|n IH]; intros prev s res s' evs H.
  - cbn in H. injection H as <- <- <-.
    repeat split; auto using incl_refl. intros ? M. now apply mentioned_nil in M.
  - rewrite loop_S in H. destruct s as [[|run_id q] net].
    + rewrite iteration_empty in H. injection H as <- <- <-.
      repeat split; auto using incl_refl.
      intros ? M. now apply mentioned_nil in M.
    + destruct (iteration prev (mkState (run_id :: q) net)) as [[r1 s1] ev1]
        eqn:H1.
      assert (M1 : forall j, mentioned j ev1 -> j = run_id)
        by (intros j; eapply iteration_mentions; eauto).
      apply iteration_popped in H1. destruct H1 as (Q & _ & _ & NB).
      assert (Q' : run_ids_queue s1 = q \/ run_ids_queue s1 = q ++ [run_id])
        by tauto.
      apply back_in_queue in Q'. destruct Q' as [I1 N1]. cbn [run_ids_queue].
      destruct r1 as [p|e|]; [|injection H as <- <- <-|contradiction].
      * destruct (loop n p s1) as [[r2 s2] ev2] eqn:H2.
        injection H as <- <- <-.
        destruct (IH _ _ _ _ _ H2) as (I2 & N2 & M2).
        repeat split.
        -- eapply incl_tran; eauto.
        -- auto.
        -- intros j M. apply mentioned_app in M. destruct M as [M|M].
           ++ left. symmetry. eauto.
           ++ apply I1. eauto.
      * repeat split; auto. intros j M. left. symmetry. eauto.
Qed.

Lemma loop_add n m prev s :
  loop (n + m) prev s =
  match loop n prev s with
  | (Ret p, s1, ev1) =>
      match loop m p s1 with (r, s2, ev2) => (r, s2, ev1 ++ ev2) end
  | other => other
  end.
Proof.
  revert prev s. induction n as [|n IH]; intros prev s.
  - cbn. now destruct (loop m prev s) as [[r s2] ev2].
  - cbn [Nat.add]. rewrite !loop_S.
    destruct (iteration prev s) as [[[p|e|] s1] ev1]; try reflexivity.
    rewrite IH. destruct (loop n p s1) as [[[p'|e|] s2] ev2]; try reflexivity.
    destruct (loop m p' s2) as [[r s3] ev3]. now rewrite app_assoc.
Qed.

(** An identifier that is not in the queue stays out of it, and the
    scheduler never fetches, applies or puts it. *)
Lemma absent_forever n prev s res s' evs run_id :
  ~ In run_id (run_ids_queue s) ->
  loop n prev s = (res, s', evs) ->
  ~ In run_id (run_ids_queue s') /\ ~ mentioned run_id evs.
Proof.
  intros A H. apply loop_from_queue in H. destruct H as (I & _ & M).
  split; intros X; apply A; auto.
Qed.

(** The events of a turn, sorted. *)
Lemma polled_shows prev run_id rp rest :
  http_calls (polled prev run_id rp ++ rest) = fetch run_id :: http_calls rest /\
  puts (polled prev run_id rp ++ rest) = puts rest /\
  applied (polled prev run_id rp ++ rest) = applied rest.
Proof.
  unfold polled, backoff. destruct (py_eq prev run_id); cbn; auto.
Qed.

Lemma answered_polled prev run_id r rest rq r' :
  In (Http rq (Answer r')) (polled prev run_id (Answer r) ++ rest) ->
  rq = fetch run_id /\ r' = r \/ In (Http rq (Answer r')) rest.
Proof.
  unfold polled, backoff. destruct (py_eq prev run_id); cbn;
    intuition congruence.
Qed.

Lemma finished_not_pending r : finished r -> pending r -> False.
Proof.
  intros (st & A & B) (st' & A' & B'). congruence.
Qed.

Lemma waiting_not_confirmable r : waiting r -> confirmable r -> False.
Proof.
  intros (_ & c & A & B) (_ & c' & A' & B'). congruence.
Qed.

(** *** A run that planned and finished *)

(** C7.  When the fetch of the queued identifier answers 200 with the status
    [planned_and_finished], the turn ends with the entry out of the queue:
    its only HTTP call is the fetch, so no apply call is made, and nothing
    is put back.  If the identifier had no other entry, the scheduler never
    mentions it again, however long it runs. *)
Theorem planned_and_finished_is_dropped prev run_id q net r :
  status_code r = 200%Z -> finished r ->
  exists evs,
    iteration prev (mkState (run_id :: q) (Answer r :: net)) =
      (Ret run_id, mkState q net, evs) /\
    http_calls evs = [fetch run_id] /\
    applied evs = [] /\
    puts evs = [] /\
    (~ In run_id q ->
     forall n p res s' evs',
       loop n p (mkState q net) = (res, s', evs') ->
       ~ In run_id (run_ids_queue s') /\ ~ mentioned run_id evs').
Proof.
  intros S F. eexists. split; [apply turn_iteration, turn_finished; auto|].
  destruct (polled_shows prev run_id (Answer r)
    [Print [Fmt run_id;
            Lit " was planned and finished successfully. Removing from processing queue."]])
    as (-> & -> & ->).
  repeat split; try reflexivity.
  all: intros; eapply absent_forever; [|eassumption]; assumption.
Qed.

(** *** The delay between two turns on one identifier *)

(** Every turn that takes an entry starts the same way: the entry is taken,
    a line is printed, the delay is observed if it is due, and the fetch is
    called; nothing sleeps after the fetch. *)
Lemma iteration_starts prev run_id q net res s' evs :
  iteration prev (mkState (run_id :: q) net) = (res, s', evs) ->
  exists rp rest,
    evs = polled prev run_id rp ++ rest /\ sleeps rest = [].
Proof.
  intros H. run_iteration H.
  all: unfold polled, backoff, fetch;
    match goal with E : py_eq _ _ = _ |- _ => rewrite E end;
    cbn; eexists; eexists; split; [reflexivity|reflexivity].
Qed.

(** C4.  Two turns in a row, the first on [a] and the second on [b].  If
    [b == a], the second turn sleeps 5 before its fetch, and all it does
    before is take the entry and print two lines; if not, it does not sleep
    at all. *)
Theorem backoff_between_turns prev a q net p1 s1 evs1 b q' res s2 evs2 :
  iteration prev (mkState (a :: q) net) = (Ret p1, s1, evs1) ->
  run_ids_queue s1 = b :: q' ->
  iteration p1 s1 = (res, s2, evs2) ->
  (py_eq a b = true ->
   exists rp rest,
     evs2 =
       QueueGet b ::
       Print [Lit "Processing "; Fmt b; Lit " from queue."] ::
       Print [Lit "Retrying the previous "; Fmt b;
              Lit ". Sleeping for 5 seconds"] ::
       Sleep 5 ::
       Http (fetch b) rp :: rest /\
     sleeps rest = []) /\
  (py_eq a b = false ->
   exists rp rest,
     evs2 =
       QueueGet b ::
       Print [Lit "Processing "; Fmt b; Lit " from queue."] ::
       Http (fetch b) rp :: rest /\
     sleeps evs2 = []).
Proof.
  intros H1 Q H2.
  apply iteration_popped in H1. destruct H1 as (_ & _ & P & _).
  rewrite (P p1 eq_refl) in H2. clear P.
  destruct s1 as [q1 net1]. cbn in Q. subst q1.
  apply iteration_starts in H2. destruct H2 as (rp & rest & -> & Z).
  unfold polled, backoff. split; intros E; rewrite E; cbn.
  - exists rp, rest. split; [reflexivity|exact Z].
  - exists rp, rest. split; [reflexivity|exact Z].
Qed.

(** *** When an entry leaves the queue *)

Lemma not_its_tail (run_id : pyval) q : q ++ [run_id] <> q.
Proof.
  intros E. apply (f_equal (@List.length pyval)) in E.
  rewrite length_app in E. cbn in E. lia.
Qed.

Lemma fetch_answered prev run_id r rest :
  answered (polled prev run_id (Answer r) ++ rest) (fetch run_id) r.
Proof.
  unfold answered, polled, backoff.
  destruct (py_eq prev run_id); cbn; auto 6.
Qed.

Lemma apply_answered prev run_id r r' rest :
  answered (polled prev run_id (Answer r) ++
            Http (apply_run run_id) (Answer r') :: rest) (apply_run run_id) r'.
Proof.
  unfold answered. apply in_or_app. right. now left.
Qed.

(** What a turn that runs to its end shows: exactly one of the six cases. *)
Lemma turn_terminal prev run_id q net s' evs :
  turn prev run_id q net s' evs ->
  run_ids_queue s' = q /\ terminal run_id evs \/
  run_ids_queue s' = q ++ [run_id] /\ ~ terminal run_id evs /\
    (not_yet_confirmable run_id evs \/ apply_conflict run_id evs).
Proof.
  unfold terminal, terminal_as_worded, apply_accepted, self_resolved,
    fetch_failed, apply_rejected, not_yet_confirmable, apply_conflict.
  destruct 1; cbn [run_ids_queue].
  - left. split; [reflexivity|]. left. right. right.
    exists r. split; [apply fetch_answered|assumption].
  - left. split; [reflexivity|]. left. right. left.
    exists r. split; [apply fetch_answered|auto].
  - right. split; [reflexivity|]. split.
    + intros X. decompose [ex and or] X; clear X.
      all: match goal with A : answered _ _ _ |- _ =>
             apply answered_polled in A; cbn in A;
             unfold fetch, apply_run, still_waiting in A end.
      all: intuition (subst; try congruence).
      eapply finished_not_pending; eauto. apply H0.
    + left. exists r. split; [apply fetch_answered|auto].
  - left. split; [reflexivity|]. left. left.
    exists r'. split; [apply apply_answered|assumption].
  - right. split; [reflexivity|]. split.
    + intros X. decompose [ex and or] X; clear X.
      all: match goal with A : answered _ _ _ |- _ =>
             apply answered_polled in A; cbn in A;
             unfold fetch, apply_run, still_waiting in A end.
      all: intuition (subst; try congruence).
      eapply finished_not_pending; eauto. apply H0.
    + right. exists r'. split; [apply apply_answered|assumption].
  - left. split; [reflexivity|]. right.
    exists r'. split; [apply apply_answered|auto].
Qed.

(** C2, amended.  Of a turn that runs to its end, the entry leaves the
    queue exactly when the apply call was accepted, the run had planned and
    finished, the fetch failed, or the apply call was answered by a status
    that is neither 202 nor 409; in every other case it is back at the
    tail. *)
Theorem removed_only_when_terminal prev s : removed_only_when terminal prev s.
Proof.
  intros run_id q p s' evs Q H. destruct s as [q0 net]. cbn in Q. subst q0.
  apply iteration_turn in H. destruct H as [-> T].
  apply turn_terminal in T. destruct T as [[Q T]|(Q & NT & _)]; rewrite Q.
  - repeat split; auto. intros NT. contradiction.
  - repeat split; auto; intros X; [|contradiction].
    now apply not_its_tail in X.
Qed.

(** *** One successful apply per entry *)

Lemma in_applied_mentioned run_id rp evs :
  In (run_id, rp) (applied evs) -> mentioned run_id evs.
Proof.
  intros H. left. change run_id with (fst (run_id, rp)). now apply in_map.
Qed.

(** On a queue without duplicates, no apply call for an identifier follows
    an accepted one, and an identifier whose apply call was accepted is out
    of the queue; an apply call answered 409 puts its identifier back. *)
Lemma loop_settled n : forall prev s res s' evs,
  NoDup (run_ids_queue s) ->
  loop n prev s = (res, s', evs) ->
  settled (applied evs) /\
  (forall run_id rp, In (run_id, rp) (applied evs) -> accepted rp = true ->
                     ~ In run_id (run_ids_queue s')) /\
  (forall run_id rp, In (run_id, rp) (applied evs) -> conflicted rp = true ->
                     In run_id (puts evs)).
Proof.
  induction n as [|n IH]; intros prev s res s' evs N H.
  - cbn in H. injection H as <- <- <-. cbn.
    split; [exact I|split; intros ? ? []].
  - rewrite loop_S in H. destruct s as [[|run_id q] net].
    + rewrite iteration_empty in H. injection H as <- <- <-. cbn.
      split; [exact I|split; intros ? ? []].
    + destruct (iteration prev (mkState (run_id :: q) net)) as [[r1 s1] ev1]
        eqn:H1.
      cbn [run_ids_queue] in N.
      apply iteration_popped in H1. destruct H1 as (Q & A & _ & B).
      assert (Q' : run_ids_queue s1 = q \/ run_ids_queue s1 = q ++ [run_id])
        by tauto.
      destruct (back_in_queue _ _ _ Q') as [I1 N1].
      assert (A1 : forall j rp, In (j, rp) (applied ev1) ->
                     j = run_id /\
                     (accepted rp = true -> run_ids_queue s1 = q) /\
                     (conflicted rp = true -> In run_id (puts ev1))).
      { intros j rp I. destruct A as [[A _]|(rp' & A & _ & D & C)];
          rewrite A in I; [destruct I|].
        destruct I as [[= <- <-]|[]].
        repeat split; auto. intros X. rewrite (C X). now left. }
      assert (S1 : settled (applied ev1)).
      { destruct A as [[-> _]|(rp' & -> & _)]; cbn; auto. }
      assert (O1 : forall j rp, In (j, rp) (applied ev1) ->
                     accepted rp = true -> ~ In j (run_ids_queue s1)).
      { intros j rp I X. destruct (A1 j rp I) as (-> & D & _).
        rewrite (D X). now inversion N. }
      clear A Q Q'.
      destruct r1 as [p|e|]; [|injection H as <- <- <-|contradiction].
      * destruct (loop n p s1) as [[r2 s2] ev2] eqn:H2.
        injection H as <- <- <-.
        destruct (IH _ _ _ _ _ (N1 N) H2) as (S2 & O2 & C2).
        destruct (loop_from_queue _ _ _ _ _ _ H2) as (I2 & _ & M2).
        rewrite applied_app, puts_app. repeat split.
        -- apply settled_app; auto.
           intros j rp I X J. apply (O1 j rp I X). apply M2. now left.
        -- intros j rp I X. apply in_app_iff in I. destruct I as [I|I].
           ++ intros J. apply (O1 j rp I X). auto.
           ++ eauto.
        -- intros j rp I X. apply in_app_iff in I. apply in_app_iff.
           destruct I as [I|I].
           ++ left. destruct (A1 j rp I) as (-> & _ & C). auto.
           ++ right. eauto.
      * repeat split; auto. intros j rp I X.
        destruct (A1 j rp I) as (-> & _ & C). auto.
Qed.

Lemma loop_idle k p net :
  loop (S k) p (mkState [] net) = (Block, mkState [] net, []).
Proof. reflexivity. Qed.

(** A lone entry goes round once per round of waiting: each time it is put
    back, and no apply call succeeds. *)
Lemma rounds_requeue run_id net rds : forall prev,
  Forall round_ok rds ->
  exists p evs,
    loop (List.length rds) prev (mkState [run_id] (script rds ++ net)) =
      (Ret p, mkState [run_id] net, evs) /\
    puts evs = repeat run_id (List.length rds) /\
    successes evs = [].
Proof.
  induction rds as [|rd rds IH]; intros prev F.
  - exists prev, []. repeat split.
  - inversion F as [|? ? Hrd F']; subst.
    cbn [List.length script flat_map]. rewrite <- app_assoc, loop_S.
    fold (script rds).
    assert (T : exists ev1,
               turn prev run_id [] (replies rd ++ script rds ++ net)
                 (mkState [run_id] (script rds ++ net)) ev1 /\
               puts ev1 = [run_id] /\ successes ev1 = []).
    { destruct rd as [r|r r']; cbn in Hrd; cbn [replies app].
      - destruct Hrd as [S W]. eexists. split.
        + apply (turn_waiting prev run_id [] r); assumption.
        + unfold successes.
          destruct (polled_shows prev run_id (Answer r)
                      [still_waiting run_id; QueuePut run_id])
            as (_ & -> & ->). split; reflexivity.
      - destruct Hrd as (S & C & S'). eexists. split.
        + apply (turn_conflict prev run_id [] r r'); assumption.
        + unfold successes.
          destruct (polled_shows prev run_id (Answer r)
                      [Http (apply_run run_id) (Answer r');
                       still_waiting run_id; QueuePut run_id])
            as (_ & -> & ->). unfold apply_run, apply_url. cbn.
          rewrite S'. split; reflexivity. }
    destruct T as (ev1 & T & P1 & A1).
    rewrite (turn_iteration _ _ _ _ _ _ T).
    destruct (IH run_id F') as (p & ev2 & -> & P2 & A2).
    exists p, (ev1 ++ ev2). split; [reflexivity|].
    rewrite puts_app, successes_app, P1, P2, A1, A2. split; reflexivity.
Qed.

Lemma conflict_requeues : conflict_requeues_at_tail.
Proof.
  intros prev run_id q r r' net S C S'. eexists. split.
  - apply turn_iteration, turn_conflict; assumption.
  - now destruct (polled_shows prev run_id (Answer r)
                    [Http (apply_run run_id) (Answer r');
                     still_waiting run_id; QueuePut run_id])
      as (_ & -> & _).
Qed.

Lemma rounds_then_accepted : rounds_then_one_apply.
Proof.
  intros prev run_id rds r r' net k F S0 C S'.
  destruct (rounds_requeue run_id (Answer r :: Answer r' :: net) rds prev F)
    as (p & ev1 & L1 & P1 & A1).
  rewrite <- Nat.add_assoc, loop_add, L1.
  change (1 + k)%nat with (S k). rewrite loop_S.
  rewrite (turn_iteration _ _ _ _ _ _
             (turn_accepted p run_id [] r r' net S0 C S')).
  set (ev2 := polled p run_id (Answer r) ++ _).
  assert (E2 : puts ev2 = [] /\ successes ev2 = [(run_id, Answer r')]).
  { unfold ev2, successes.
    destruct (polled_shows p run_id (Answer r)
                [Http (apply_run run_id) (Answer r');
                 Print [Lit "Successfully applied run "; Fmt run_id]])
      as (_ & -> & ->). unfold apply_run, apply_url. cbn.
    rewrite S'. split; reflexivity. }
  destruct E2 as [P2 A2].
  destruct k as [|k].
  - cbn [process_queue_loop ret]. exists (Ret run_id), (ev1 ++ ev2 ++ []).
    split; [reflexivity|].
    rewrite app_nil_r, successes_app, puts_app, P1, P2, A1, A2, app_nil_r.
    split; reflexivity.
  - rewrite loop_idle. exists Block, (ev1 ++ ev2 ++ []).
    split; [reflexivity|].
    rewrite app_nil_r, successes_app, puts_app, P1, P2, A1, A2, app_nil_r.
    split; reflexivity.
Qed.

(** C3, amended.  On a queue in which no identifier has two entries, and
    however long the scheduler runs: no apply call for an identifier follows
    an accepted one, the identifier is out of the queue and the scheduler
    never mentions it again; an apply call answered 409 puts the entry back
    at the tail; and a lone entry that waits for [N] rounds before it is
    accepted gets exactly one successful apply call. *)
Theorem one_successful_apply n prev s res s' evs :
  NoDup (run_ids_queue s) ->
  loop n prev s = (res, s', evs) ->
  settled (applied evs) /\
  (forall run_id rp,
     In (run_id, rp) (applied evs) -> accepted rp = true ->
     ~ In run_id (run_ids_queue s') /\
     forall m p res2 s2 evs2,
       loop m p s' = (res2, s2, evs2) ->
       ~ In run_id (run_ids_queue s2) /\ ~ mentioned run_id evs2) /\
  (forall run_id rp,
     In (run_id, rp) (applied evs) -> conflicted rp = true ->
     In run_id (puts evs)) /\
  conflict_requeues_at_tail /\
  rounds_then_one_apply.
Proof.
  intros N H. destruct (loop_settled n _ _ _ _ _ N H) as (S & O & C).
  repeat split; auto using conflict_requeues, rounds_then_accepted.
  - eapply O; eauto.
  - eapply absent_forever; eauto.
  - eapply absent_forever; eauto.
Qed.

End Scheduler.

(** ** The worker *)

Section Worker.

Variable secret_key : string.
Variable api_token : pyval.
Variable hexdigest : string -> string -> string.

Abbreviation process_request' := (process_request secret_key api_token hexdigest).

Abbreviation signed := (authentic secret_key hexdigest).

Lemma authentic_passes body_raw request_hmac :
  signed body_raw request_hmac ->
  py_eq (opt_str request_hmac) (PStr (hexdigest secret_key body_raw)) = true.
Proof. intros ->. apply py_eq_str. reflexivity. Qed.

Lemma mismatch_not_authentic body_raw request_hmac :
  py_eq (opt_str request_hmac) (PStr (hexdigest secret_key body_raw)) = false <->
  ~ signed body_raw request_hmac.
Proof.
  unfold authentic. destruct request_hmac as [h|]; unfold opt_str, py_eq.
  - rewrite String.eqb_neq. split; congruence.
  - split; [discriminate|reflexivity].
Qed.

Lemma subscript_dict d k v :
  dict_get d k = Some v -> subscript (PDict d) k = Ok v.
Proof. unfold subscript. now intros ->. Qed.

Ltac run_goal :=
  repeat (progress unfold bind, ret, raise, lift, getitem, print, time_sleep,
            requests, queue_put, queue_get, response_json, thread_start,
            attr_get, report);
  cbn;
  repeat (match goal with
          | E : ?x = _ |- context [match ?x with _ => _ end] => rewrite E
          | E : ?x = _ |- context [if ?x then _ else _] => rewrite E
          | E : ?x = _ |- context [negb ?x] => rewrite E
          end; cbn).

(** The run of the worker on an event whose signature does not match. *)
Lemma invalid_hmac_run body body_raw request_hmac access_token q net :
  dict_get body "access_token" = Some access_token ->
  ~ signed body_raw request_hmac ->
  process_request' body body_raw request_hmac (mkState q net) =
    (returned (next_reply net), mkState q (tl net),
     [ Print [Lit "HMACs do not match."];
       Print [Lit "Request: "; Fmt (opt_str request_hmac)];
       Print [Lit "genearted: "; Fmt (PStr (hexdigest secret_key body_raw))];
       callback body access_token (verdict "failed" [Lit "Invalid HMAC."])
         (next_reply net) ]).
Proof.
  intros T A. apply mismatch_not_authentic in A. apply subscript_dict in T.
  unfold process_request. run_goal.
  destruct net as [|[r|e] net]; reflexivity.
Qed.

Lemma py_get_absent body k : dict_mem body k = false -> py_get body k = PNone.
Proof. unfold dict_mem, py_get. now destruct (dict_get body k). Qed.

(** *** An event whose signature does not match *)

(** C1, amended.  The worker answers an event whose signature is not the
    digest of its raw body with one callback, to the callback target of the
    event: status [failed], message [Invalid HMAC.], a body that holds no
    digest; nothing is queued.  The computed digest does leave the process:
    it is printed on the standard output. *)
Theorem invalid_hmac_is_rejected body body_raw request_hmac access_token s :
  dict_get body "access_token" = Some access_token ->
  ~ signed body_raw request_hmac ->
  exists res s' evs,
    process_request' body body_raw request_hmac s = (res, s', evs) /\
    verdicts evs =
      [ (py_get body "task_result_callback_url",
         tfc_body (mkAttributes "failed" (Some [Lit "Invalid HMAC."]))) ] /\
    puts evs = [] /\
    run_ids_queue s' = run_ids_queue s /\
    prints evs =
      [ [Lit "HMACs do not match."];
        [Lit "Request: "; Fmt (opt_str request_hmac)];
        [Lit "genearted: "; Fmt (PStr (hexdigest secret_key body_raw))] ] /\
    leaks (hexdigest secret_key body_raw) evs.
Proof.
  intros T A. destruct s as [q net].
  rewrite (invalid_hmac_run _ _ _ _ q net T A).
  eexists _, _, _. split; [reflexivity|].
  do 4 (split; [reflexivity|]).
  exists (Print [Lit "genearted: "; Fmt (PStr (hexdigest secret_key body_raw))]).
  exists [Lit "genearted: "; Fmt (PStr (hexdigest secret_key body_raw))].
  cbn. auto 6.
Qed.

(** C9, amended.  On an event that carries its [access_token] and whose
    signature does not match, the only HTTP call of the worker is the PATCH
    of the failure verdict, sent to
    [body.get("task_result_callback_url")] whether or not the key is there:
    without the key the URL is [None].  The same event with the right
    signature and no callback target makes no call at all. *)
Theorem invalid_hmac_patches_unchecked body body_raw request_hmac access_token
    q net :
  dict_get body "access_token" = Some access_token ->
  ~ signed body_raw request_hmac ->
  (exists res s' evs,
     process_request' body body_raw request_hmac (mkState q net) =
       (res, s', evs) /\
     http_calls evs =
       [ PATCH (py_get body "task_result_callback_url")
           (verdict "failed" [Lit "Invalid HMAC."])
           (run_task_headers access_token) ]) /\
  (dict_mem body "task_result_callback_url" = false ->
   py_get body "task_result_callback_url" = PNone /\
   process_request' body body_raw (Some (hexdigest secret_key body_raw))
     (mkState q net) =
     (Ret None, mkState q net,
      [ Print [Lit "task_result_callback_url not found in the request body."] ])).
Proof.
  intros T A. split.
  - rewrite (invalid_hmac_run _ _ _ _ q net T A).
    eexists _, _, _. split; reflexivity.
  - intros C. split; [now apply py_get_absent|].
    pose proof (authentic_passes body_raw _ eq_refl) as P.
    cbn [opt_str] in P. apply subscript_dict in T. unfold process_request. run_goal. reflexivity.
Qed.

(** *** An event of another stage *)

(** The run of the worker on an authentic event of another stage. *)
Lemma other_stage_run body body_raw request_hmac access_token q net :
  dict_get body "access_token" = Some access_token ->
  signed body_raw request_hmac ->
  dict_mem body "task_result_callback_url" = true ->
  py_eq (py_get body "stage") (PStr "post_plan") = false ->
  process_request' body body_raw request_hmac (mkState q net) =
    (returned (next_reply net), mkState q (tl net),
     [ callback body access_token
         (verdict "passed"
            [Lit "Nothing to do. This is not a post_plan phase."])
         (next_reply net) ]).
Proof.
  intros T A C S. apply authentic_passes in A. apply subscript_dict in T.
  unfold process_request. run_goal.
  destruct net as [|[r|e] net]; reflexivity.
Qed.

(** C6, amended.  On an authentic event that carries its [access_token],
    has a callback target and whose stage is not [post_plan], the worker
    sends one verdict, [passed] with the
    message of the stage, and that callback is its only HTTP call; nothing
    is put in the queue, which is left as it was. *)
Theorem other_stage_passes body body_raw request_hmac access_token s :
  dict_get body "access_token" = Some access_token ->
  signed body_raw request_hmac ->
  dict_mem body "task_result_callback_url" = true ->
  py_eq (py_get body "stage") (PStr "post_plan") = false ->
  exists res s' evs,
    process_request' body body_raw request_hmac s = (res, s', evs) /\
    verdicts evs =
      [ (py_get body "task_result_callback_url",
         tfc_body (mkAttributes "passed"
                     (Some [Lit "Nothing to do. This is not a post_plan phase."]))) ] /\
    List.length (http_calls evs) = 1%nat /\
    puts evs = [] /\
    run_ids_queue s' = run_ids_queue s.
Proof.
  intros T A C S. destruct s as [q net].
  rewrite (other_stage_run _ _ _ _ q net T A C S).
  eexists _, _, _. repeat split.
Qed.

(** *** An event that is queued *)

(** The run of the worker on an event that it queues. *)
Lemma queued_run body body_raw request_hmac access_token q
    run_r ws_r net source workspace_id :
  dict_get body "access_token" = Some access_token ->
  signed body_raw request_hmac ->
  dict_mem body "task_result_callback_url" = true ->
  py_eq (py_get body "stage") (PStr "post_plan") = true ->
  truthy (py_get body "run_id") = true ->
  status_code run_r = 200%Z ->
  attribute run_r "source" = Some source ->
  py_eq source (PStr "tfe-run-trigger") = true ->
  workspace_id_of run_r = Some workspace_id ->
  status_code ws_r = 200%Z ->
  attribute ws_r "auto-apply" = Some (PBool true) ->
  let run_id := py_get body "run_id" in
  process_request' body body_raw request_hmac
    (mkState q (Answer run_r :: Answer ws_r :: net)) =
    (returned (next_reply net), mkState (q ++ [run_id]) (tl net),
     [ Print [Lit "Processing message received from "; Fmt run_id];
       Http (GET (run_details_url run_id) (tfc_headers api_token))
         (Answer run_r);
       Http (GET (workspace_url workspace_id) (tfc_headers api_token))
         (Answer ws_r);
       QueuePut run_id;
       callback body access_token
         (verdict "passed"
            [Lit "Added "; Fmt run_id;
             Lit " to the queue to be auto-applied when ready."])
         (next_reply net) ]).
Proof.
  intros T A C S R S1 Src Trig W S2 Auto run_id. subst run_id.
  apply authentic_passes in A. apply subscript_dict in T.
  apply Z.eqb_eq in S1, S2.
  unfold attribute, run_attributes, workspace_id_of in *.
  repeat match goal with
    | H : context [match ?x with _ => _ end] |- _ =>
        no_match x; destruct x eqn:?; try discriminate
    end.
  repeat match goal with
    | H : Some _ = Some _ |- _ => injection H as ->
    end.
  unfold process_request. run_goal.
  change (py_eq (PBool true) (PBool false)) with false. cbn.
  destruct net as [|[r|e] net]; reflexivity.
Qed.

(** C5, amended.  On an authentic [post_plan] event that carries its
    [access_token], has a callback target and a run identifier, when the
    fetch of the run answers 200 with the source
    [tfe-run-trigger] and the fetch of its workspace answers 200 with
    [auto-apply] true, the worker puts the run identifier at the tail of
    the queue, once, and sends one verdict: [passed], with the message
    [Added ... to the queue to be auto-applied when ready.] *)
Theorem run_triggered_is_queued body body_raw request_hmac access_token q
    run_r ws_r net source workspace_id :
  dict_get body "access_token" = Some access_token ->
  signed body_raw request_hmac ->
  dict_mem body "task_result_callback_url" = true ->
  py_eq (py_get body "stage") (PStr "post_plan") = true ->
  truthy (py_get body "run_id") = true ->
  status_code run_r = 200%Z ->
  attribute run_r "source" = Some source ->
  py_eq source (PStr "tfe-run-trigger") = true ->
  workspace_id_of run_r = Some workspace_id ->
  status_code ws_r = 200%Z ->
  attribute ws_r "auto-apply" = Some (PBool true) ->
  let run_id := py_get body "run_id" in
  exists res s' evs,
    process_request' body body_raw request_hmac
      (mkState q (Answer run_r :: Answer ws_r :: net)) = (res, s', evs) /\
    puts evs = [run_id] /\
    run_ids_queue s' = q ++ [run_id] /\
    verdicts evs =
      [ (py_get body "task_result_callback_url",
         tfc_body (mkAttributes "passed"
                     (Some [Lit "Added "; Fmt run_id;
                            Lit " to the queue to be auto-applied when ready."]))) ].
Proof.
  intros T A C S R S1 Src Trig W S2 Auto run_id.
  rewrite (queued_run _ _ _ _ q _ _ net _ _ T A C S R S1 Src Trig W S2 Auto).
  eexists _, _, _. repeat split.
Qed.

End Worker.

(** ** The HTTP handler *)

Lemma only_test_is_test v : py_eq v (PStr "test") = true <-> v = PStr "test".
Proof.
  destruct v; try (split; discriminate). rewrite py_eq_str.
  split; congruence.
Qed.

(** C8.  On the probe, the event whose [task_result_enforcement_level] is
    ["test"], the handler returns the response 200 and does nothing else: no
    thread is started, so nothing is evaluated, called back or queued. *)
Theorem probe_is_acknowledged request d s :
  get_json request = PDict d ->
  dict_get d "task_result_enforcement_level" = Some (PStr "test") ->
  run_function request s = (Ret (mkFlaskResponse 200), s, []).
Proof.
  intros J L. unfold run_function, attr_get, py_get. rewrite J, L.
  reflexivity.
Qed.

(** C10.  On any other event, whether [task_result_enforcement_level] is
    absent or is a value other than the string ["test"], the handler starts
    one worker thread on the event (its body, its raw body and its
    signature header) and returns the response 200 without waiting. *)
Theorem other_events_are_processed request d s :
  get_json request = PDict d ->
  dict_get d "task_result_enforcement_level" <> Some (PStr "test") ->
  run_function request s =
    (Ret (mkFlaskResponse 200), s,
     [ ThreadStart (mkArgs d (data request)
                      (headers_get request "X-Tfc-Task-Signature")) ]).
Proof.
  intros J L. unfold run_function, attr_get. rewrite J.
  assert (E : py_eq (py_get d "task_result_enforcement_level") (PStr "test")
              = false).
  { apply not_true_is_false. rewrite only_test_is_test. unfold py_get.
    destruct (dict_get d "task_result_enforcement_level"); congruence. }
  unfold bind, ret, thread_start. cbn. rewrite E. reflexivity.
Qed.

(** ** The secrets file *)

Lemma kept_false line :
  kept line = false <-> strip line = EmptyString \/ is_comment line = true.
Proof.
  unfold kept. rewrite andb_false_iff, !negb_false_iff, String.eqb_eq.
  reflexivity.
Qed.

Lemma split_eq_without s : has_eq s = false -> split_eq s = [s].
Proof.
  unfold has_eq. induction s as [|c s IH]; cbn; [reflexivity|].
  rewrite orb_false_iff. intros [C H]. rewrite C, (IH H). reflexivity.
Qed.

Lemma split_eq_at k v :
  has_eq k = false -> split_eq (k ++ "=" ++ v) = [k; v].
Proof.
  unfold has_eq. induction k as [|c k IH]; cbn; [reflexivity|].
  rewrite orb_false_iff. intros [C H]. rewrite C.
  specialize (IH H). cbn in IH. rewrite IH. reflexivity.
Qed.

Lemma split_eq_with s : has_eq s = true -> exists k v, split_eq s = [k; v].
Proof.
  unfold has_eq. induction s as [|c s IH]; cbn; [discriminate|].
  destruct (c =? "=")%char; cbn; [eauto|].
  intros H. destruct (IH H) as (k & v & ->). eauto.
Qed.

Lemma dict_get_set d k v : dict_get (dict_set d k v) k = Some v.
Proof.
  induction d as [|[k' v'] d IH]; cbn.
  - now rewrite String.eqb_refl.
  - destruct (String.eqb k' k) eqn:E; cbn; rewrite E; auto.
Qed.

Lemma dict_get_set_other d k v k' :
  k' <> k -> dict_get (dict_set d k v) k' = dict_get d k'.
Proof.
  intros N. induction d as [|[k0 v0] d IH]; cbn.
  - apply String.eqb_neq in N. rewrite String.eqb_sym in N. now rewrite N.
  - destruct (String.eqb k0 k) eqn:E; cbn.
    + apply String.eqb_eq in E. subst k0.
      destruct (String.eqb k k') eqn:E'; [|reflexivity].
      apply String.eqb_eq in E'. congruence.
    + now rewrite IH.
Qed.

Lemma read_secrets_cons line rest d :
  read_secrets (line :: rest) d =
  if kept line then
    match entry_of line with
    | Some (k, v) => read_secrets rest (dict_set d k (PStr v))
    | None => Raises ValueError
    end
  else read_secrets rest d.
Proof.
  cbn. unfold entry_of. destruct (kept line); [|reflexivity].
  destruct (split_eq (strip line)) as [|k [|v [|x l]]]; reflexivity.
Qed.

Lemma read_secrets_app l1 l2 : forall d,
  read_secrets (l1 ++ l2) d =
  match read_secrets l1 d with
  | Returns d1 => read_secrets l2 d1
  | Raises e => Raises e
  end.
Proof.
  induction l1 as [|line l1 IH]; intros d; [reflexivity|].
  rewrite <- app_comm_cons, !read_secrets_cons.
  destruct (kept line); [|apply IH].
  destruct (entry_of line) as [[k v]|]; [apply IH|reflexivity].
Qed.

(** The only exception of the reading is [ValueError]. *)
Lemma read_secrets_raises l : forall d e,
  read_secrets l d = Raises e -> e = ValueError.
Proof.
  induction l as [|line l IH]; intros d e; [discriminate|].
  rewrite read_secrets_cons. destruct (kept line); [|apply IH].
  destruct (entry_of line) as [[k v]|]; [apply IH|congruence].
Qed.

Lemma entry_of_well_formed line :
  well_formed line -> kept line = true -> exists k v, entry_of line = Some (k, v).
Proof.
  intros W K. unfold entry_of. rewrite K.
  destruct (split_eq_with _ (W K)) as (k & v & ->). eauto.
Qed.

Lemma read_secrets_total l : forall d,
  Forall well_formed l -> exists d', read_secrets l d = Returns d'.
Proof.
  induction l as [|line l IH]; intros d F; [cbn; eauto|].
  inversion F as [|? ? W F']; subst. rewrite read_secrets_cons.
  destruct (kept line) eqn:K; [|auto].
  destruct (entry_of_well_formed _ W K) as (k & v & ->). auto.
Qed.

(** Lines that do not define a key leave its binding as it was. *)
Lemma read_secrets_keeps name l : forall d d',
  Forall (fun line => key_of line <> Some name) l ->
  read_secrets l d = Returns d' ->
  dict_get d' name = dict_get d name.
Proof.
  induction l as [|line l IH]; intros d d' F H.
  - cbn in H. congruence.
  - inversion F as [|? ? N F']; subst. rewrite read_secrets_cons in H.
    destruct (kept line); [|eauto].
    unfold key_of in N. destruct (entry_of line) as [[k v]|]; [|discriminate].
    rewrite (IH _ _ F' H). apply dict_get_set_other. cbn in N. congruence.
Qed.

(** A name that no line defines is not in the dict that was read. *)
Lemma read_secrets_undefined lines name :
  Forall well_formed lines ->
  Forall (fun line => key_of line <> Some name) lines ->
  exists d, read_secrets lines [] = Returns d /\ dict_get d name = None.
Proof.
  intros F L. destruct (read_secrets_total lines [] F) as (d & R).
  exists d. split; [exact R|]. apply (read_secrets_keeps _ _ _ _ L R).
Qed.

(** X1.  A blank line or a line that starts with ['#'] can be put anywhere
    in the secrets file, or taken out of it: what [get_secret] prints and
    returns, for any name, is the same. *)
Theorem comments_and_blanks_are_ignored l1 line l2 env secret_name :
  strip line = EmptyString \/ is_comment line = true ->
  get_secret (mkHost (Some (l1 ++ line :: l2)) env) secret_name =
  get_secret (mkHost (Some (l1 ++ l2)) env) secret_name.
Proof.
  intros H. apply kept_false in H. unfold get_secret. cbn [secrets_file].
  rewrite !read_secrets_app.
  destruct (read_secrets l1 []) as [d1|e]; [|reflexivity].
  rewrite read_secrets_cons, H. reflexivity.
Qed.

(** X2.  A line of the secrets file that is neither blank nor a comment and
    whose text has no ['='] makes [get_secret] raise [ValueError], after it
    printed its line, whatever the name asked and the other lines. *)
Theorem line_without_eq_raises l1 line l2 env secret_name :
  kept line = true ->
  has_eq (strip line) = false ->
  get_secret (mkHost (Some (l1 ++ line :: l2)) env) secret_name =
    ([Print [Lit "Found secrets file."]], Raises ValueError).
Proof.
  intros K E. unfold get_secret. cbn. rewrite read_secrets_app.
  destruct (read_secrets l1 []) as [d1|e] eqn:R.
  - rewrite read_secrets_cons, K. unfold entry_of.
    rewrite K, (split_eq_without _ E). reflexivity.
  - now rewrite (read_secrets_raises _ _ _ R).
Qed.

(** X3.  In a secrets file whose lines are all well formed, a kept line
    whose text is [k=v], with no ['='] in [k], gives [k] the value [v],
    which may itself hold ['=']; [get_secret(k)] returns it unless a later
    line defines [k] again.  The environment is not read. *)
Theorem last_definition_wins l1 line l2 env k v :
  Forall well_formed (l1 ++ l2) ->
  kept line = true ->
  strip line = (k ++ "=" ++ v)%string ->
  has_eq k = false ->
  Forall (fun later => key_of later <> Some k) l2 ->
  get_secret (mkHost (Some (l1 ++ line :: l2)) env) k =
    ([Print [Lit "Found secrets file."]], Returns (PStr v)).
Proof.
  intros F K S E L. apply Forall_app in F. destruct F as [F1 F2].
  unfold get_secret. cbn. rewrite read_secrets_app.
  destruct (read_secrets_total l1 [] F1) as (d1 & ->).
  rewrite read_secrets_cons, K. unfold entry_of.
  rewrite K, S, (split_eq_at _ _ E).
  destruct (read_secrets_total l2 (dict_set d1 k (PStr v)) F2) as (d2 & R).
  rewrite R. unfold py_get.
  rewrite (read_secrets_keeps _ _ _ _ L R), dict_get_set. reflexivity.
Qed.

(** X4.  When the secrets file is there, the environment is never used: a
    name that no line of a well-formed file defines resolves to [None],
    whatever the environment holds for it. *)
Theorem file_shadows_environment lines env secret_name :
  Forall well_formed lines ->
  Forall (fun line => key_of line <> Some secret_name) lines ->
  get_secret (mkHost (Some lines) env) secret_name =
    ([Print [Lit "Found secrets file."]], Returns PNone).
Proof.
  intros F L. unfold get_secret. cbn.
  destruct (read_secrets_undefined lines secret_name F L) as (d & -> & G).
  unfold py_get. rewrite G. reflexivity.
Qed.

(** X5.  The import of the module fails with [TypeError] when
    [HMAC_SECRET] resolves to [None]: that is when a well-formed secrets
    file does not define it, even if the environment does, and when there
    is no file and the environment does not define it. *)
Theorem import_needs_hmac_secret h :
  match secrets_file h with
  | Some lines =>
      Forall well_formed lines /\
      Forall (fun line => key_of line <> Some "HMAC_SECRET") lines
  | None => environ h "HMAC_SECRET" = None
  end ->
  snd (load_globals h) = Raises (Raised TypeError).
Proof.
  destruct h as [[lines|] env]; cbn [secrets_file environ].
  - intros [F L]. unfold load_globals, get_secret. cbn.
    destruct (read_secrets_undefined lines _ F L) as (d & -> & G).
    unfold py_get. rewrite G. reflexivity.
  - intros E. unfold load_globals, get_secret. cbn. rewrite E. reflexivity.
Qed.

(** ** More on the scheduler *)

Section SchedulerMore.

Variable api_token : pyval.

Abbreviation iteration := (process_queue_iteration api_token).
Abbreviation loop := (process_queue_loop api_token).

Ltac run_turn H :=
  unfold process_queue_iteration in H; run_in H;
  repeat (split_match H; cbn in H; try discriminate);
  inversion H; subst; clear H.

Ltac tests :=
  repeat match goal with
    | H : negb _ = true |- _ => apply negb_true_iff in H
    | H : negb _ = false |- _ => apply negb_false_iff in H
    | H : (_ =? _)%Z = true |- _ => apply Z.eqb_eq in H
    | H : (_ =? _)%Z = false |- _ => apply Z.eqb_neq in H
    end.

Ltac reply_says :=
  unfold waiting, confirmable, finished, pending, is_confirmable, attribute,
    run_attributes;
  repeat match goal with
    | E : ?x = _ |- context [match ?x with _ => _ end] =>
        rewrite E; cbv beta iota
    end.

Ltac hyps_say :=
  unfold waiting, confirmable, finished, pending, is_confirmable, attribute,
    run_attributes in *;
  repeat match goal with
    | H : _ /\ _ |- _ => destruct H
    | H : exists _, _ |- _ => destruct H
    end;
  repeat match goal with
    | E : ?x = _, H : context [match ?x with _ => _ end] |- _ =>
        rewrite E in H; cbv beta iota in H
    end;
  repeat match goal with
    | H : Some _ = Some _ |- _ => injection H as <-
    end.

Lemma taken_app a b : taken (a ++ b) = taken a ++ taken b.
Proof. apply flat_map_app. Qed.

(** A turn takes one entry: the head of the queue. *)
Lemma iteration_takes prev run_id q net res s' evs :
  iteration prev (mkState (run_id :: q) net) = (res, s', evs) ->
  taken evs = [run_id].
Proof. intros H. run_turn H; reflexivity. Qed.

(** A turn sleeps for its delay and at no other time. *)
Lemma iteration_sleeps prev run_id q net res s' evs :
  iteration prev (mkState (run_id :: q) net) = (res, s', evs) ->
  sleeps evs = if py_eq prev run_id then [5%Z] else [].
Proof.
  intros H. apply iteration_starts in H. destruct H as (rp & rest & -> & Z).
  rewrite sleeps_app, Z, app_nil_r. unfold polled, backoff.
  destruct (py_eq prev run_id); reflexivity.
Qed.

(** X7.  The scheduler calls the apply action of a run only in a turn whose
    fetch of that run was answered 200 with a status other than
    [planned_and_finished] and with [is-confirmable] other than false. *)
Theorem apply_only_after_confirmable prev s res s' evs run_id :
  iteration prev s = (res, s', evs) ->
  In (apply_run api_token run_id) (http_calls evs) ->
  exists q r net,
    s = mkState (run_id :: q) (Answer r :: net) /\
    status_code r = 200%Z /\ confirmable r.
Proof.
  intros H I. destruct s as [[|head q] net].
  - rewrite iteration_empty in H. injection H as <- <- <-. destruct I.
  - run_turn H; cbn in I; unfold apply_run, fetch, apply_url, run_details_url in I;
      repeat match goal with
        | I : _ \/ _ |- _ => destruct I as [I|I]
        end;
      try discriminate; try contradiction;
      injection I as <-; tests;
      eexists _, _, _; (split; [reflexivity|]); (split; [assumption|]);
      reply_says; eauto 10.
Qed.

(** X8.  An exception raised by the fetch or by the apply call ends the
    loop: the turn raises, the entry it took is not put back, the entries
    behind it stay in the queue, and no later turn runs, whatever the number
    of turns asked. *)
Theorem exception_ends_the_loop n prev run_id q net :
  (forall e,
     loop (S n) prev (mkState (run_id :: q) (Fault e :: net)) =
       (Raise e, mkState q net, polled api_token prev run_id (Fault e))) /\
  (forall r e,
     status_code r = 200%Z -> confirmable r ->
     loop (S n) prev (mkState (run_id :: q) (Answer r :: Fault e :: net)) =
       (Raise e, mkState q net,
        polled api_token prev run_id (Answer r) ++
        [Http (apply_run api_token run_id) (Fault e)])).
Proof.
  split.
  - intros e. rewrite loop_S.
    destruct (iteration prev (mkState (run_id :: q) (Fault e :: net)))
      as [[r1 s1] ev1] eqn:H.
    run_turn H; unfold polled, backoff, fetch;
      match goal with E : py_eq _ _ = _ |- _ => rewrite E end; reflexivity.
  - intros r e S C. rewrite loop_S.
    destruct (iteration prev
                (mkState (run_id :: q) (Answer r :: Fault e :: net)))
      as [[r1 s1] ev1] eqn:H.
    run_turn H; tests; hyps_say; try discriminate; try congruence;
      unfold polled, backoff, fetch, apply_run;
      match goal with E : py_eq _ _ = _ |- _ => rewrite E end; reflexivity.
Qed.

(** X9.  A fetch answered 200 whose body does not give
    [data.attributes.status] (it is not JSON, or a key is missing) makes
    the turn raise, and that ends the loop: the entry is not put back, no
    apply call is made, and the entries behind it are never served. *)
Theorem malformed_reply_ends_the_loop n prev run_id q net r :
  status_code r = 200%Z ->
  attribute r "status" = None ->
  exists e,
    loop (S n) prev (mkState (run_id :: q) (Answer r :: net)) =
      (Raise e, mkState q net, polled api_token prev run_id (Answer r)).
Proof.
  intros S A. rewrite loop_S.
  destruct (iteration prev (mkState (run_id :: q) (Answer r :: net)))
    as [[r1 s1] ev1] eqn:H.
  run_turn H; tests; hyps_say; try discriminate; try congruence;
    eexists; unfold polled, backoff, fetch;
    match goal with E : py_eq _ _ = _ |- _ => rewrite E end; reflexivity.
Qed.

(** X10.  The scheduler only moves entries: after any number of turns, the
    entries left and the entries taken add up to the entries at the start
    and the entries put back, and no more entries were put back than
    taken.  So the scheduler never makes the queue longer. *)
Theorem queue_is_conserved n : forall prev s res s' evs,
  loop n prev s = (res, s', evs) ->
  (List.length (run_ids_queue s') + List.length (taken evs) =
   List.length (run_ids_queue s) + List.length (puts evs))%nat /\
  (List.length (puts evs) <= List.length (taken evs))%nat.
Proof.
  induction n as [|n IH]; intros prev s res s' evs H.
  - cbn in H. injection H as <- <- <-. cbn. lia.
  - rewrite loop_S in H. destruct s as [[|run_id q] net].
    + rewrite iteration_empty in H. injection H as <- <- <-. cbn. lia.
    + destruct (iteration prev (mkState (run_id :: q) net)) as [[r1 s1] ev1]
        eqn:H1.
      pose proof (iteration_takes _ _ _ _ _ _ _ H1) as T1.
      apply iteration_popped in H1. destruct H1 as (Q & _ & _ & B).
      assert (L1 : (List.length (run_ids_queue s1) + 1 =
                    List.length (run_id :: q) + List.length (puts ev1))%nat /\
                   (List.length (puts ev1) <= 1)%nat).
      { destruct Q as [[-> ->]|[-> ->]]; cbn; rewrite ?length_app; cbn; lia. }
      cbn [run_ids_queue].
      destruct r1 as [p|e|]; [|injection H as <- <- <-|contradiction].
      * destruct (loop n p s1) as [[r2 s2] ev2] eqn:H2.
        injection H as <- <- <-. apply IH in H2.
        rewrite taken_app, puts_app, !length_app, T1. cbn in *. lia.
      * rewrite T1. cbn in *. lia.
Qed.

(** X11.  Entries are served in the order of the queue: the first [n] turns
    that run to their end, [n] at most the length of the queue, take its
    first [n] entries in order; the entries put back stand behind all the
    entries that still wait. *)
Theorem first_come_first_served n : forall prev q net p s' evs,
  loop n prev (mkState q net) = (Ret p, s', evs) ->
  (n <= List.length q)%nat ->
  taken evs = firstn n q /\
  exists back,
    run_ids_queue s' = skipn n q ++ back /\ incl back (firstn n q).
Proof.
  induction n as [|n IH]; intros prev q net p s' evs H L.
  - cbn in H. injection H as <- <- <-. cbn. split; [reflexivity|].
    exists []. rewrite app_nil_r. split; [reflexivity|apply incl_nil_l].
  - destruct q as [|run_id q]; [cbn in L; lia|]. cbn in L.
    rewrite loop_S in H.
    destruct (iteration prev (mkState (run_id :: q) net)) as [[r1 s1] ev1]
      eqn:H1.
    pose proof (iteration_takes _ _ _ _ _ _ _ H1) as T1.
    apply iteration_popped in H1. destruct H1 as (Q & _ & _ & _).
    destruct r1 as [p1|e|]; try discriminate.
    destruct (loop n p1 s1) as [[r2 s2] ev2] eqn:H2.
    injection H as -> <- <-. destruct s1 as [q1 net1]. cbn in Q.
    assert (B : exists b, q1 = q ++ b /\ incl b [run_id]).
    { destruct Q as [[-> _]|[-> _]].
      - exists []. rewrite app_nil_r. split; [reflexivity|apply incl_nil_l].
      - exists [run_id]. split; [reflexivity|apply incl_refl]. }
    destruct B as (b & -> & Ib).
    destruct (IH _ _ _ _ _ _ H2) as (T2 & back & Q2 & I2).
    { rewrite length_app. lia. }
    rewrite firstn_app in T2, I2. rewrite skipn_app in Q2.
    replace (n - List.length q)%nat with 0%nat in * by lia.
    cbn [firstn skipn] in *. rewrite app_nil_r in T2, I2.
    rewrite taken_app, T1, T2. split; [reflexivity|].
    exists (b ++ back). rewrite Q2, <- app_assoc. split; [reflexivity|].
    intros x Hx. apply in_app_iff in Hx. destruct Hx as [Hx|Hx].
    + left. apply Ib in Hx. destruct Hx as [Hx|[]]. exact Hx.
    + right. auto.
Qed.

(** A lone entry that waits: each round puts it back, and from the second
    turn on every turn sleeps. *)
Lemma rounds_sleep run_id net rds : forall prev,
  py_eq run_id run_id = true ->
  Forall round_ok rds ->
  exists evs,
    loop (List.length rds) prev (mkState [run_id] (script rds ++ net)) =
      (Ret (match rds with [] => prev | _ :: _ => run_id end),
       mkState [run_id] net, evs) /\
    taken evs = repeat run_id (List.length rds) /\
    sleeps evs =
      match rds with
      | [] => []
      | _ :: rest =>
          (if py_eq prev run_id then [5%Z] else []) ++
          repeat 5%Z (List.length rest)
      end.
Proof.
  intros prev R F. revert prev.
  induction rds as [|rd rds IH]; intros prev.
  - exists []. repeat split.
  - inversion F as [|? ? Hrd F']; subst.
    cbn [List.length script flat_map]. rewrite <- app_assoc, loop_S.
    fold (script rds).
    assert (T : exists ev1,
               turn api_token prev run_id [] (replies rd ++ script rds ++ net)
                 (mkState [run_id] (script rds ++ net)) ev1).
    { destruct rd as [r|r r']; cbn in Hrd; cbn [replies app].
      - destruct Hrd as [S W]. eexists.
        apply (turn_waiting api_token prev run_id [] r); assumption.
      - destruct Hrd as (S & C & S'). eexists.
        apply (turn_conflict api_token prev run_id [] r r'); assumption. }
    destruct T as (ev1 & T). apply turn_iteration in T.
    pose proof (iteration_sleeps _ _ _ _ _ _ _ T) as S1.
    pose proof (iteration_takes _ _ _ _ _ _ _ T) as T1.
    rewrite T.
    destruct (IH F' run_id) as (ev2 & -> & T2 & S2).
    exists (ev1 ++ ev2). split; [|split].
    + destruct rds; reflexivity.
    + rewrite taken_app, T1, T2. reflexivity.
    + rewrite sleeps_app, S1, S2. f_equal.
      destruct rds; [reflexivity|]. rewrite R. reflexivity.
Qed.

(** X12.  A lone entry whose identifier is a string and that is not ready
    for [N] rounds, the fetch saying not confirmable or the apply call
    answered 409: from its start the scheduler runs [N] turns, leaves the
    entry in the queue, and sleeps 5 before every turn but the first. *)
Theorem lone_entry_is_throttled run_id rds net :
  Forall round_ok rds ->
  exists p evs,
    process_queue api_token (List.length rds)
      (mkState [PStr run_id] (script rds ++ net)) =
      (Ret p, mkState [PStr run_id] net, evs) /\
    taken evs = repeat (PStr run_id) (List.length rds) /\
    sleeps evs = repeat 5%Z (List.length rds - 1).
Proof.
  intros F. unfold process_queue.
  destruct (rounds_sleep (PStr run_id) net rds PNone) as (evs & E & T & S);
    [apply py_eq_str; reflexivity|exact F|].
  eexists _, evs. split; [exact E|]. split; [exact T|].
  rewrite S. destruct rds; [reflexivity|].
  cbn. now rewrite Nat.sub_0_r.
Qed.

(** Two entries that wait in turn: no turn sleeps. *)
Lemma two_entries_rotate net rs : forall prev a b,
  Forall (fun r => status_code r = 200%Z /\ waiting r) rs ->
  py_eq prev a = false -> py_eq a b = false -> py_eq b a = false ->
  exists p evs,
    loop (List.length rs) prev (mkState [a; b] (map Answer rs ++ net)) =
      (Ret p,
       mkState (if Nat.even (List.length rs) then [a; b] else [b; a]) net,
       evs) /\
    sleeps evs = [] /\
    List.length (http_calls evs) = List.length rs.
Proof.
  induction rs as [|r rs IH]; intros prev a b F Pa Ab Ba.
  - exists prev, []. repeat split.
  - inversion F as [|? ? [S W] F']; subst.
    cbn [List.length map app]. rewrite loop_S.
    pose proof (turn_waiting api_token prev a [b] r (map Answer rs ++ net) S W)
      as T.
    apply turn_iteration in T.
    pose proof (iteration_sleeps _ _ _ _ _ _ _ T) as S1.
    pose proof (iteration_popped _ _ _ _ _ _ _ _ T) as (_ & C & _).
    rewrite T. cbn [app].
    destruct (IH a b a F' Ab Ba Ab) as (p & ev2 & -> & S2 & C2).
    exists p, (polled api_token prev a (Answer r) ++
               [still_waiting a; QueuePut a] ++ ev2).
    rewrite app_assoc. split; [|split].
    + rewrite Nat.even_succ, <- Nat.negb_even.
      destruct (Nat.even (List.length rs)); reflexivity.
    + rewrite sleeps_app, S1, S2, Pa. reflexivity.
    + rewrite http_calls_app, length_app, C2.
      destruct C as [[_ ->]|(rp & A & _)]; [reflexivity|].
      destruct (polled_shows api_token prev a (Answer r)
                  [still_waiting a; QueuePut a]) as (_ & _ & X).
      rewrite X in A. discriminate.
Qed.

(** X13.  With two entries whose identifiers are different strings, the
    delay never applies: while the fetches say not confirmable the
    scheduler takes the two entries in turn, calls one fetch per turn and
    never sleeps. *)
Theorem two_entries_are_never_throttled a b rs net :
  a <> b ->
  Forall (fun r => status_code r = 200%Z /\ waiting r) rs ->
  exists p s' evs,
    process_queue api_token (List.length rs)
      (mkState [PStr a; PStr b] (map Answer rs ++ net)) = (Ret p, s', evs) /\
    sleeps evs = [] /\
    List.length (http_calls evs) = List.length rs /\
    network s' = net.
Proof.
  intros N F. unfold process_queue.
  assert (Ab : py_eq (PStr a) (PStr b) = false).
  { apply not_true_is_false. rewrite py_eq_str. exact N. }
  assert (Ba : py_eq (PStr b) (PStr a) = false).
  { apply not_true_is_false. rewrite py_eq_str. congruence. }
  destruct (two_entries_rotate net rs PNone (PStr a) (PStr b) F eq_refl Ab Ba)
    as (p & evs & E & S & C).
  eexists p, _, evs. split; [exact E|]. repeat split; assumption.
Qed.



End SchedulerMore.

(** ** More on the worker *)

Section WorkerMore.

Variable secret_key : string.
Variable api_token : pyval.
Variable hexdigest : string -> string -> string.

Abbreviation process_request' := (process_request secret_key api_token hexdigest).
Abbreviation signed := (authentic secret_key hexdigest).
Abbreviation post_plan := (post_plan_event secret_key hexdigest).

Ltac run_worker :=
  repeat (progress unfold bind, ret, raise, lift, getitem, print, time_sleep,
            requests, queue_put, queue_get, response_json, thread_start,
            attr_get, report);
  cbn;
  repeat (match goal with
          | E : ?x = _ |- context [match ?x with _ => _ end] => rewrite E
          | E : ?x = _ |- context [if ?x then _ else _] => rewrite E
          | E : ?x = _ |- context [negb ?x] => rewrite E
          end; cbn).

Ltac open_event E :=
  destruct E as (T & A & C & S);
  apply authentic_passes in A; apply subscript_dict in T.

Ltac open_replies :=
  unfold attribute, run_attributes, workspace_id_of in *;
  repeat match goal with
    | H : context [match ?x with _ => _ end] |- _ =>
        no_match x; destruct x eqn:?; try discriminate
    end;
  repeat match goal with
    | H : Some _ = Some _ |- _ => injection H as ->
    end.

Lemma pass_is_authentic body_raw request_hmac :
  py_eq (opt_str request_hmac) (PStr (hexdigest secret_key body_raw)) = true ->
  signed body_raw request_hmac.
Proof.
  unfold authentic. destruct request_hmac as [h|]; unfold opt_str.
  - rewrite py_eq_str. congruence.
  - discriminate.
Qed.

(** X14.  An event without the key [access_token] makes the worker raise
    [KeyError] at once, whatever its signature: nothing is printed, no
    verdict is sent, nothing is queued. *)
Theorem missing_access_token_raises body body_raw request_hmac s :
  dict_get body "access_token" = None ->
  process_request' body body_raw request_hmac s =
    (Raise (KeyError "access_token"), s, []).
Proof.
  intros T. unfold process_request, bind, getitem, lift, subscript.
  rewrite T. reflexivity.
Qed.

(** X15.  On an authentic [post_plan] event that carries its
    [access_token] and has a callback target, and whose [run_id] is absent
    or falsy (null, false, 0, the empty string, an empty list or dict), the
    worker sends the verdict [failed] with the message of the missing
    run_id; it fetches nothing and queues nothing. *)
Theorem missing_run_id_fails body body_raw request_hmac access_token q net :
  post_plan body body_raw request_hmac access_token ->
  truthy (py_get body "run_id") = false ->
  exists res evs,
    process_request' body body_raw request_hmac (mkState q net) =
      (res, mkState q (tl net), evs) /\
    verdicts evs =
      [ (py_get body "task_result_callback_url",
         verdict "failed"
           [Lit "There was no run_id specified in the payload."]) ] /\
    List.length (http_calls evs) = 1%nat /\
    puts evs = [].
Proof.
  intros E R. open_event E. unfold process_request. run_worker.
  destruct net as [|[r|e] net]; eexists _, _; repeat split.
Qed.

(** X16.  When the fetch of the run is answered by a status other than 200,
    the worker sends the verdict [failed] with the text of the answer in
    its message; it does not fetch the workspace and queues nothing. *)
Theorem run_fetch_failure_fails body body_raw request_hmac access_token q
    run_r net :
  post_plan body body_raw request_hmac access_token ->
  truthy (py_get body "run_id") = true ->
  status_code run_r <> 200%Z ->
  exists res evs,
    process_request' body body_raw request_hmac
      (mkState q (Answer run_r :: net)) = (res, mkState q (tl net), evs) /\
    verdicts evs =
      [ (py_get body "task_result_callback_url",
         verdict "failed"
           [Lit "Failed to get run details: "; Fmt (PStr (text run_r))]) ] /\
    List.length (http_calls evs) = 2%nat /\
    puts evs = [].
Proof.
  intros E R S1. open_event E. apply Z.eqb_neq in S1.
  unfold process_request. run_worker.
  destruct net as [|[r|e] net]; eexists _, _; repeat split.
Qed.

(** X17.  When the run was not started by a run trigger (its source is not
    [tfe-run-trigger]), the worker sends the verdict [passed] with the
    message of the source; it does not fetch the workspace and queues
    nothing. *)
Theorem other_source_passes body body_raw request_hmac access_token q
    run_r net source :
  post_plan body body_raw request_hmac access_token ->
  truthy (py_get body "run_id") = true ->
  status_code run_r = 200%Z ->
  attribute run_r "source" = Some source ->
  py_eq source (PStr "tfe-run-trigger") = false ->
  exists res evs,
    process_request' body body_raw request_hmac
      (mkState q (Answer run_r :: net)) = (res, mkState q (tl net), evs) /\
    verdicts evs =
      [ (py_get body "task_result_callback_url",
         verdict "passed"
           [Lit "Nothing to do. This is not a run triggered run."]) ] /\
    List.length (http_calls evs) = 2%nat /\
    puts evs = [].
Proof.
  intros E R S1 Src Trig. open_event E. apply Z.eqb_eq in S1.
  open_replies. unfold process_request. run_worker.
  destruct net as [|[r|e] net]; eexists _, _; repeat split.
Qed.

(** X18.  When the fetch of the workspace is answered by a status other
    than 200, the worker sends the verdict [failed] with the text of the
    answer in its message, and queues nothing. *)
Theorem workspace_fetch_failure_fails body body_raw request_hmac access_token
    q run_r ws_r net source workspace_id :
  post_plan body body_raw request_hmac access_token ->
  truthy (py_get body "run_id") = true ->
  status_code run_r = 200%Z ->
  attribute run_r "source" = Some source ->
  py_eq source (PStr "tfe-run-trigger") = true ->
  workspace_id_of run_r = Some workspace_id ->
  status_code ws_r <> 200%Z ->
  exists res evs,
    process_request' body body_raw request_hmac
      (mkState q (Answer run_r :: Answer ws_r :: net)) =
      (res, mkState q (tl net), evs) /\
    verdicts evs =
      [ (py_get body "task_result_callback_url",
         verdict "failed"
           [Lit "Failed to get workspace details: ";
            Fmt (PStr (text ws_r))]) ] /\
    http_calls evs =
      [ GET (run_details_url (py_get body "run_id")) (tfc_headers api_token);
        GET (workspace_url workspace_id) (tfc_headers api_token);
        PATCH (py_get body "task_result_callback_url")
          (verdict "failed"
             [Lit "Failed to get workspace details: ";
              Fmt (PStr (text ws_r))])
          (run_task_headers access_token) ] /\
    puts evs = [].
Proof.
  intros E R S1 Src Trig W S2. open_event E.
  apply Z.eqb_eq in S1. apply Z.eqb_neq in S2.
  open_replies. unfold process_request. run_worker.
  destruct net as [|[r|e] net]; eexists _, _; repeat split.
Qed.

(** X19.  The value of [auto-apply] decides by [== False]: when it is false
    or 0, the verdict is [passed] with the message of the workspace and
    nothing is queued; for every other value, null included, the run
    identifier is put in the queue and the verdict is [passed] with the
    message of the queue. *)
Theorem auto_apply_decides body body_raw request_hmac access_token q
    run_r ws_r net source workspace_id auto_apply :
  post_plan body body_raw request_hmac access_token ->
  truthy (py_get body "run_id") = true ->
  status_code run_r = 200%Z ->
  attribute run_r "source" = Some source ->
  py_eq source (PStr "tfe-run-trigger") = true ->
  workspace_id_of run_r = Some workspace_id ->
  status_code ws_r = 200%Z ->
  attribute ws_r "auto-apply" = Some auto_apply ->
  let run_id := py_get body "run_id" in
  let off := py_eq auto_apply (PBool false) in
  exists res evs,
    process_request' body body_raw request_hmac
      (mkState q (Answer run_r :: Answer ws_r :: net)) =
      (res, mkState (q ++ if off then [] else [run_id]) (tl net), evs) /\
    puts evs = (if off then [] else [run_id]) /\
    verdicts evs =
      [ (py_get body "task_result_callback_url",
         verdict "passed"
           (if off
            then [Lit "Nothing to do. Workspace is not configured for auto-apply"]
            else [Lit "Added "; Fmt run_id;
                  Lit " to the queue to be auto-applied when ready."])) ].
Proof.
  intros E R S1 Src Trig W S2 Auto run_id off. subst run_id off.
  open_event E. apply Z.eqb_eq in S1, S2. open_replies.
  unfold process_request.
  destruct (py_eq auto_apply (PBool false)) eqn:O; run_worker;
    rewrite ?app_nil_r;
    destruct net as [|[r|e] net]; eexists _, _; repeat split.
Qed.

(** X20.  When the fetch of the run is answered 200 with a body that does
    not give [data.attributes.source], or gives the source of a run trigger
    but not [data.relationships.workspace.data.id], the worker raises after
    the fetch: no verdict is sent and nothing is queued. *)
Theorem malformed_run_reply_sends_no_verdict body body_raw request_hmac
    access_token q run_r net :
  post_plan body body_raw request_hmac access_token ->
  truthy (py_get body "run_id") = true ->
  status_code run_r = 200%Z ->
  attribute run_r "source" = None \/
  (exists source,
     attribute run_r "source" = Some source /\
     py_eq source (PStr "tfe-run-trigger") = true /\
     workspace_id_of run_r = None) ->
  exists e,
    process_request' body body_raw request_hmac
      (mkState q (Answer run_r :: net)) =
      (Raise e, mkState q net,
       [ Print [Lit "Processing message received from ";
                Fmt (py_get body "run_id")];
         Http (GET (run_details_url (py_get body "run_id"))
                 (tfc_headers api_token)) (Answer run_r) ]).
Proof.
  intros E R S1 M. open_event E. apply Z.eqb_eq in S1.
  destruct M as [M|(source & Src & Trig & W)]; open_replies;
    unfold process_request; run_worker; eexists; reflexivity.
Qed.

(** X21.  Whatever the event, the signature and the replies of the network,
    a run of the worker has this shape: it never waits and never takes from
    the queue; its HTTP calls are at most three, none of them a POST, and at
    most one is a callback; the queue is left as it was but for what the
    worker put.  It puts at most one value, and only the truthy [run_id] of
    an authentic [post_plan] event that has a callback target, and then the
    verdict it sends is [passed]. *)
Theorem worker_shape body body_raw request_hmac s res s' evs :
  process_request' body body_raw request_hmac s = (res, s', evs) ->
  res <> Block /\
  taken evs = [] /\
  (List.length (http_calls evs) <= 3)%nat /\
  Forall not_a_post (http_calls evs) /\
  (List.length (verdicts evs) <= 1)%nat /\
  run_ids_queue s' = run_ids_queue s ++ puts evs /\
  (puts evs = [] \/
   puts evs = [py_get body "run_id"] /\
   truthy (py_get body "run_id") = true /\
   signed body_raw request_hmac /\
   dict_mem body "task_result_callback_url" = true /\
   py_eq (py_get body "stage") (PStr "post_plan") = true /\
   verdicts evs =
     [ (py_get body "task_result_callback_url",
        verdict "passed"
          [Lit "Added "; Fmt (py_get body "run_id");
           Lit " to the queue to be auto-applied when ready."]) ]).
Proof.
  intros H. destruct s as [q net].
  unfold process_request, report in H. run_in H.
  repeat (split_match H; cbn in H; try discriminate).
  all: inversion H; subst; clear H; cbn.
  all: rewrite ?app_nil_r.
  all: repeat match goal with
         | H : negb _ = true |- _ => apply negb_true_iff in H
         | H : negb _ = false |- _ => apply negb_false_iff in H
         end.
  all: split; [discriminate|]; split; [reflexivity|];
       split; [lia|]; split; [repeat constructor|]; split; [lia|];
       split; [reflexivity|].
  all: first [ left; reflexivity
             | right; repeat split; auto using pass_is_authentic ].
Qed.

End WorkerMore.

(** ** More on the handler, and on the parts together *)

(** X22.  A request whose JSON body is not an object (a list, a string, a
    number, null) makes the handler raise [AttributeError]: no worker is
    started. *)
Theorem non_object_body_raises request s :
  (forall d, get_json request <> PDict d) ->
  run_function request s = (Raise AttributeError, s, []).
Proof.
  intros N. unfold run_function, attr_get.
  destruct (get_json request); try reflexivity. now contradiction (N d).
Qed.


(** X6.  A missing [TFC_API_TOKEN] does not stop the import: when
    [HMAC_SECRET] resolves to a string and [TFC_API_TOKEN] to [None], the
    module loads with [api_token = None], and every request of a turn of
    the scheduler then carries the header [Authorization: Bearer None]. *)
Theorem missing_api_token_is_sent_as_none h key :
  snd (get_secret h "HMAC_SECRET") = Returns (PStr key) ->
  snd (get_secret h "TFC_API_TOKEN") = Returns PNone ->
  exists g,
    snd (load_globals h) = Returns g /\
    g_secret_key g = key /\
    forall prev s res s' evs rq,
      process_queue_iteration (g_api_token g) prev s = (res, s', evs) ->
      In rq (http_calls evs) ->
      headers_of rq =
        [ ("Authorization", [Lit "Bearer "; Fmt PNone]);
          ("Content-Type", [Lit "application/vnd.api+json"]) ].
Proof.
  intros H1 H2. exists (mkGlobals key PNone). unfold load_globals.
  destruct (get_secret h "HMAC_SECRET") as [ev1 r1]. cbn in H1. subst r1.
  cbn [bytes_utf8].
  destruct (get_secret h "TFC_API_TOKEN") as [ev2 r2]. cbn in H2. subst r2.
  split; [reflexivity|]. split; [reflexivity|].
  cbn [g_api_token]. intros prev [[|run_id q] net] res s' evs rq H I.
  - rewrite iteration_empty in H. injection H as <- <- <-. destruct I.
  - apply iteration_popped in H.
    destruct H as (_ & [[_ C]|(rp & _ & C & _)] & _); rewrite C in I;
      cbn in I; intuition (subst rq; reflexivity).
Qed.

(** ** Examples

    The claims on concrete events and replies, with the real
    HMAC-SHA512. *)

Example sha512_abc :
  HmacSha512.hex (HmacSha512.sha512 (HmacSha512.bytes_of_string "abc")) =
  "ddaf35a193617abacc417349ae20413112e6fa4e89a97ea20a9eeee64b55d39a2192992a274fc1a836ba3c23a3feebbd454d4423643ce80e2a9ac94fa54ca49f".
Proof. vm_compute. reflexivity. Qed.

(** RFC 4231, test case 2. *)
Example hmac_sha512_rfc4231 :
  HmacSha512.hexdigest "Jefe" "what do ya want for nothing?" =
  "164b7a7bfcf819e2e395fbe73b56e0a387bd64222e831fd610270cd7ea2505549758bf75c05a994a6d034f65f8f0e6fdcaeab1a34d4a6b4b636e070a38bce737".
Proof. vm_compute. reflexivity. Qed.

Example ex_raw_post_plan :
  ex_raw "post_plan" =
  String.concat dq
    [ "{"; "task_result_enforcement_level"; ": "; "mandatory"; ", ";
      "access_token"; ": "; "event-token"; ", ";
      "task_result_callback_url"; ": ";
      "https://app.terraform.io/api/v2/task-results/tr-1/callback"; ", ";
      "stage"; ": "; "post_plan"; ", "; "run_id"; ": "; "run-1"; "}" ].
Proof. vm_compute. reflexivity. Qed.

Example ex_digest_post_plan :
  HmacSha512.hexdigest ex_key (ex_raw "post_plan") =
  "356b678b1fcc253c6fba8d740e6905753049d77123e49d36cbb259a520b0532022ce0772f95928dc8b4520a9cf5ebc9cde8b24597a9f48f9233301db7340a0f2".
Proof. vm_compute. reflexivity. Qed.

Abbreviation ex_process_request :=
  (process_request ex_key ex_api_token HmacSha512.hexdigest).

Abbreviation ex_authentic := (authentic ex_key HmacSha512.hexdigest).

(** *** C1 *)

(** The claim as it is worded fails: on a [post_plan] event signed with a
    wrong signature, the failed verdict is sent, and the digest that the
    worker computed is among its outputs. *)
Lemma invalid_hmac_prints_the_digest :
  let s := mkState [] [Answer (ex_reply 200)] in
  exists res s' evs,
    ex_process_request (ex_body "post_plan") (ex_raw "post_plan")
      (Some "deadbeef") s = (res, s', evs) /\
    ~ ex_authentic (ex_raw "post_plan") (Some "deadbeef") /\
    verdicts evs =
      [ (py_get (ex_body "post_plan") "task_result_callback_url",
         tfc_body (mkAttributes "failed" (Some [Lit "Invalid HMAC."]))) ] /\
    leaks (HmacSha512.hexdigest ex_key (ex_raw "post_plan")) evs.
Proof.
  intros s. eexists _, _, _. split; [vm_compute; reflexivity|].
  split; [|split; [reflexivity|]].
  - unfold authentic. rewrite ex_digest_post_plan. discriminate.
  - eexists (Print _), _. split; [right; right; left; reflexivity|].
    split; [left; reflexivity|]. right. left. vm_compute. reflexivity.
Qed.

Lemma invalid_hmac_is_rejected_witness :
  let body := ex_body "post_plan" in
  let raw := ex_raw "post_plan" in
  let s := mkState [] [Answer (ex_reply 200)] in
  dict_get body "access_token" = Some (PStr "event-token") /\
  ~ ex_authentic raw None /\
  exists res s' evs,
    ex_process_request body raw None s = (res, s', evs) /\
    verdicts evs =
      [ (py_get body "task_result_callback_url",
         tfc_body (mkAttributes "failed" (Some [Lit "Invalid HMAC."]))) ] /\
    puts evs = [] /\
    run_ids_queue s' = run_ids_queue s /\
    prints evs =
      [ [Lit "HMACs do not match."];
        [Lit "Request: "; Fmt (opt_str None)];
        [Lit "genearted: "; Fmt (PStr (HmacSha512.hexdigest ex_key raw))] ] /\
    leaks (HmacSha512.hexdigest ex_key raw) evs.
Proof.
  intros body raw s.
  assert (T : dict_get body "access_token" = Some (PStr "event-token"))
    by reflexivity.
  assert (A : ~ ex_authentic raw None) by discriminate.
  split; [exact T|]. split; [exact A|].
  exact (invalid_hmac_is_rejected ex_key ex_api_token HmacSha512.hexdigest
           body raw None (PStr "event-token") s T A).
Defined.

(** *** C9 *)

(** The claim as it is worded fails on an event without [access_token]:
    the empty object, with no signature, fails the HMAC verification, and
    the worker raises [KeyError] before the verification; no PATCH is
    attempted. *)
Lemma invalid_hmac_without_token_sends_no_patch :
  let s := mkState [] [Answer (ex_reply 200)] in
  ~ ex_authentic (dumps (PDict [])) None /\
  exists res s' evs,
    ex_process_request [] (dumps (PDict [])) None s = (res, s', evs) /\
    res = Raise (KeyError "access_token") /\
    http_calls evs = [] /\
    network s' = network s.
Proof.
  intros s. split; [discriminate|].
  eexists _, _, _. split; [reflexivity|]. repeat split.
Qed.

Lemma invalid_hmac_patches_unchecked_witness :
  let body := ex_body_no_callback in
  let raw := dumps (PDict body) in
  dict_get body "access_token" = Some (PStr "event-token") /\
  ~ ex_authentic raw None /\
  dict_mem body "task_result_callback_url" = false /\
  (exists res s' evs,
     ex_process_request body raw None (mkState [] []) = (res, s', evs) /\
     http_calls evs =
       [ PATCH PNone
           (tfc_body (mkAttributes "failed" (Some [Lit "Invalid HMAC."])))
           (run_task_headers (PStr "event-token")) ]) /\
  ex_process_request body raw (Some (HmacSha512.hexdigest ex_key raw))
    (mkState [] []) =
    (Ret None, mkState [] [],
     [ Print [Lit "task_result_callback_url not found in the request body."] ]).
Proof.
  intros body raw.
  assert (T : dict_get body "access_token" = Some (PStr "event-token"))
    by reflexivity.
  assert (A : ~ ex_authentic raw None) by discriminate.
  assert (C : dict_mem body "task_result_callback_url" = false) by reflexivity.
  destruct (invalid_hmac_patches_unchecked ex_key ex_api_token
              HmacSha512.hexdigest body raw None (PStr "event-token") [] []
              T A) as [P Q].
  split; [exact T|]. split; [exact A|]. split; [exact C|].
  split; [exact P|exact (proj2 (Q C))].
Defined.

(** *** C6 *)

(** The claim as it is worded fails on an event without [access_token]: an
    authentic [pre_plan] event that has a callback target makes the worker
    raise [KeyError]; no verdict is sent. *)
Lemma other_stage_without_token_sends_no_verdict :
  let body := ex_body_no_token "pre_plan" in
  let raw := dumps (PDict body) in
  let request_hmac := Some (HmacSha512.hexdigest ex_key raw) in
  let s := mkState [] [Answer (ex_reply 200)] in
  ex_authentic raw request_hmac /\
  dict_mem body "task_result_callback_url" = true /\
  py_eq (py_get body "stage") (PStr "post_plan") = false /\
  exists res s' evs,
    ex_process_request body raw request_hmac s = (res, s', evs) /\
    res = Raise (KeyError "access_token") /\
    verdicts evs = [] /\
    http_calls evs = [].
Proof.
  intros body raw request_hmac s.
  split; [reflexivity|]. split; [reflexivity|]. split; [reflexivity|].
  eexists _, _, _. split; [reflexivity|]. repeat split.
Qed.

Lemma other_stage_passes_witness :
  let body := ex_body "pre_plan" in
  let raw := ex_raw "pre_plan" in
  let s := mkState [PStr "run-0"] [Answer (ex_reply 200)] in
  dict_get body "access_token" = Some (PStr "event-token") /\
  ex_authentic raw (ex_signature "pre_plan") /\
  dict_mem body "task_result_callback_url" = true /\
  py_eq (py_get body "stage") (PStr "post_plan") = false /\
  exists res s' evs,
    ex_process_request body raw (ex_signature "pre_plan") s = (res, s', evs) /\
    verdicts evs =
      [ (py_get body "task_result_callback_url",
         tfc_body (mkAttributes "passed"
                     (Some [Lit "Nothing to do. This is not a post_plan phase."]))) ] /\
    List.length (http_calls evs) = 1%nat /\
    puts evs = [] /\
    run_ids_queue s' = run_ids_queue s.
Proof.
  intros body raw s.
  assert (T : dict_get body "access_token" = Some (PStr "event-token"))
    by reflexivity.
  assert (A : ex_authentic raw (ex_signature "pre_plan")) by reflexivity.
  assert (C : dict_mem body "task_result_callback_url" = true) by reflexivity.
  assert (S : py_eq (py_get body "stage") (PStr "post_plan") = false)
    by reflexivity.
  repeat (split; [assumption|]).
  exact (other_stage_passes ex_key ex_api_token HmacSha512.hexdigest
           body raw (ex_signature "pre_plan") (PStr "event-token") s T A C S).
Defined.

(** *** C5 *)

(** The claim as it is worded fails on an event without [access_token]: an
    authentic [post_plan] event that has a callback target and the
    identifier of a run-triggered run, in a workspace with auto-apply,
    makes the worker raise [KeyError]; nothing is put in the queue and no
    verdict is sent. *)
Lemma run_triggered_without_token_is_not_queued :
  let body := ex_body_no_token "post_plan" in
  let raw := dumps (PDict body) in
  let request_hmac := Some (HmacSha512.hexdigest ex_key raw) in
  let run_r := ex_run_reply "planned" false in
  let ws_r := ex_workspace_reply true in
  let s := mkState [] [Answer run_r; Answer ws_r; Answer (ex_reply 200)] in
  ex_authentic raw request_hmac /\
  dict_mem body "task_result_callback_url" = true /\
  py_eq (py_get body "stage") (PStr "post_plan") = true /\
  truthy (py_get body "run_id") = true /\
  attribute run_r "source" = Some (PStr "tfe-run-trigger") /\
  attribute ws_r "auto-apply" = Some (PBool true) /\
  exists res s' evs,
    ex_process_request body raw request_hmac s = (res, s', evs) /\
    res = Raise (KeyError "access_token") /\
    puts evs = [] /\
    run_ids_queue s' = [] /\
    verdicts evs = [].
Proof.
  intros body raw request_hmac run_r ws_r s.
  do 6 (split; [reflexivity|]).
  eexists _, _, _. split; [reflexivity|]. repeat split.
Qed.

Lemma run_triggered_is_queued_witness :
  let body := ex_body "post_plan" in
  let raw := ex_raw "post_plan" in
  let run_r := ex_run_reply "planned" false in
  let ws_r := ex_workspace_reply true in
  exists res s' evs,
    ex_process_request body raw (ex_signature "post_plan")
      (mkState [] [Answer run_r; Answer ws_r; Answer (ex_reply 200)]) =
      (res, s', evs) /\
    puts evs = [ex_run] /\
    run_ids_queue s' = [ex_run] /\
    verdicts evs =
      [ (PStr "https://app.terraform.io/api/v2/task-results/tr-1/callback",
         tfc_body (mkAttributes "passed"
                     (Some [Lit "Added "; Fmt ex_run;
                            Lit " to the queue to be auto-applied when ready."]))) ].
Proof.
  intros body raw run_r ws_r.
  exact (run_triggered_is_queued ex_key ex_api_token HmacSha512.hexdigest
           body raw (ex_signature "post_plan") (PStr "event-token") []
           run_r ws_r [Answer (ex_reply 200)]
           (PStr "tfe-run-trigger") (PStr "ws-1")
           eq_refl eq_refl eq_refl eq_refl eq_refl eq_refl eq_refl eq_refl
           eq_refl eq_refl eq_refl).
Defined.

(** *** C7 *)

Lemma planned_and_finished_is_dropped_witness :
  let r := ex_run_reply "planned_and_finished" false in
  status_code r = 200%Z /\
  finished r /\
  exists evs,
    process_queue_iteration ex_api_token PNone
      (mkState [ex_run; PStr "run-2"] [Answer r]) =
      (Ret ex_run, mkState [PStr "run-2"] [], evs) /\
    http_calls evs = [fetch ex_api_token ex_run] /\
    applied evs = [] /\
    puts evs = [].
Proof.
  intros r.
  assert (S : status_code r = 200%Z) by reflexivity.
  assert (F : finished r).
  { exists (PStr "planned_and_finished"). split; reflexivity. }
  split; [exact S|]. split; [exact F|].
  destruct (planned_and_finished_is_dropped ex_api_token PNone ex_run
              [PStr "run-2"] [] r S F) as (evs & E & H & A & P & _).
  exists evs. repeat (split; [assumption|]). assumption.
Defined.

(** *** C4 *)

(** The same identifier twice in a row: the second turn sleeps before its
    fetch.  Two identifiers in turn: the second turn does not sleep. *)
Lemma backoff_between_turns_witness :
  let r := ex_run_reply "planned" false in
  (exists rp rest,
     snd (process_queue_iteration ex_api_token ex_run
            (mkState [ex_run] [Answer r])) =
       QueueGet ex_run ::
       Print [Lit "Processing "; Fmt ex_run; Lit " from queue."] ::
       Print [Lit "Retrying the previous "; Fmt ex_run;
              Lit ". Sleeping for 5 seconds"] ::
       Sleep 5 ::
       Http (fetch ex_api_token ex_run) rp :: rest /\
     sleeps rest = []) /\
  (exists rp rest,
     snd (process_queue_iteration ex_api_token ex_run
            (mkState [PStr "run-2"; ex_run] [Answer r])) =
       QueueGet (PStr "run-2") ::
       Print [Lit "Processing "; Fmt (PStr "run-2"); Lit " from queue."] ::
       Http (fetch ex_api_token (PStr "run-2")) rp :: rest /\
     sleeps (snd (process_queue_iteration ex_api_token ex_run
                    (mkState [PStr "run-2"; ex_run] [Answer r]))) = []).
Proof.
  intros r. split.
  - refine (proj1 (backoff_between_turns ex_api_token PNone ex_run []
                     [Answer r; Answer r] ex_run
                     (mkState [ex_run] [Answer r]) _
                     ex_run [] _ _ _ _ eq_refl _) eq_refl);
      vm_compute; reflexivity.
  - refine (proj2 (backoff_between_turns ex_api_token PNone ex_run
                     [PStr "run-2"]
                     [Answer r; Answer r] ex_run
                     (mkState [PStr "run-2"; ex_run] [Answer r]) _
                     (PStr "run-2") [ex_run] _ _ _ _ eq_refl _) eq_refl);
      vm_compute; reflexivity.
Defined.

(** *** C2 *)

(** The claim as it is worded fails: the fetch says the run is confirmable,
    the apply call is answered 500, and the entry leaves the queue although
    the apply call was not accepted, the run had not planned and finished,
    and the fetch had not failed. *)
Lemma unexpected_apply_status_drops_the_run :
  ~ removed_only_when ex_api_token (terminal_as_worded ex_api_token) PNone
      (mkState [ex_run]
         [Answer (ex_run_reply "planned" true); Answer (ex_reply 500)]).
Proof.
  intros H.
  eassert (E : process_queue_iteration ex_api_token PNone
                 (mkState [ex_run]
                    [Answer (ex_run_reply "planned" true);
                     Answer (ex_reply 500)]) =
               (Ret ex_run, mkState [] [], _)) by (vm_compute; reflexivity).
  destruct (H ex_run [] _ _ _ eq_refl E) as [[D _] _].
  specialize (D eq_refl).
  destruct D as [(r & A & S)|[(r & A & S & st & At & F)|(r & A & S)]];
    cbn in A;
    repeat match goal with
      | A : _ \/ _ |- _ => destruct A as [A|A]
      end;
    try discriminate; try contradiction;
    injection A as <-.
  - discriminate.
  - vm_compute in At. injection At as <-. discriminate.
  - apply S. reflexivity.
Qed.

Lemma removed_only_when_terminal_witness :
  let s := mkState [ex_run]
             [Answer (ex_run_reply "planned" true); Answer (ex_reply 500)] in
  let out := process_queue_iteration ex_api_token PNone s in
  run_ids_queue s = [ex_run] /\
  out = (Ret ex_run, mkState [] [], snd out) /\
  terminal ex_api_token ex_run (snd out).
Proof.
  intros s out.
  assert (Q : run_ids_queue s = [ex_run]) by reflexivity.
  assert (E : out = (Ret ex_run, mkState [] [], snd out))
    by (vm_compute; reflexivity).
  split; [exact Q|]. split; [exact E|].
  exact (proj1 (proj1 (removed_only_when_terminal ex_api_token PNone s
                         ex_run [] ex_run (mkState [] []) (snd out) Q E))
           eq_refl).
Defined.

(** *** C3 *)

(** The claim as it is worded fails when one event is delivered twice: the
    two workers put the run identifier twice, and the scheduler applies it
    twice, the second time after the first was accepted. *)
Lemma same_event_twice_is_applied_twice :
  let args := mkArgs (ex_body "post_plan") (ex_raw "post_plan")
                (ex_signature "post_plan") in
  let deliver := worker ex_key ex_api_token HmacSha512.hexdigest args in
  let net :=
    [ Answer (ex_run_reply "planned" false); Answer (ex_workspace_reply true);
      Answer (ex_reply 200);
      Answer (ex_run_reply "planned" false); Answer (ex_workspace_reply true);
      Answer (ex_reply 200);
      Answer (ex_run_reply "planned" true); Answer (ex_reply 202);
      Answer (ex_run_reply "planned" true); Answer (ex_reply 202) ] in
  exists res s' evs,
    (deliver ;; deliver ;; process_queue ex_api_token 2) (mkState [] net) =
      (res, s', evs) /\
    puts evs = [ex_run; ex_run] /\
    successes evs =
      [ (ex_run, Answer (ex_reply 202)); (ex_run, Answer (ex_reply 202)) ] /\
    ~ settled (applied evs).
Proof.
  intros args deliver net. eexists _, _, _.
  split; [vm_compute; reflexivity|].
  split; [reflexivity|]. split; [reflexivity|].
  intros [H _]. apply H; [reflexivity|]. left. reflexivity.
Qed.

Lemma one_successful_apply_witness :
  let s := mkState [ex_run; PStr "run-2"]
             [ Answer (ex_run_reply "planned" false);
               Answer (ex_run_reply "planned_and_finished" false);
               Answer (ex_run_reply "planned" true); Answer (ex_reply 409);
               Answer (ex_run_reply "planned" true); Answer (ex_reply 202) ] in
  let out := process_queue ex_api_token 5 s in
  NoDup (run_ids_queue s) /\
  settled (applied (snd out)) /\
  successes (snd out) = [(ex_run, Answer (ex_reply 202))] /\
  puts (snd out) = [ex_run; ex_run] /\
  run_ids_queue (snd (fst out)) = [].
Proof.
  intros s out.
  assert (N : NoDup (run_ids_queue s)).
  { repeat constructor; [intros [X|[]]; discriminate|intros []]. }
  assert (E : process_queue_loop ex_api_token 5 PNone s =
              (fst (fst out), snd (fst out), snd out))
    by (vm_compute; reflexivity).
  split; [exact N|].
  split; [exact (proj1 (one_successful_apply ex_api_token 5 PNone s
                          _ _ _ N E))|].
  repeat split; vm_compute; reflexivity.
Defined.

(** *** C8 and C10 *)

Lemma probe_is_acknowledged_witness :
  run_function (ex_request (PStr "test")) (mkState [ex_run] []) =
  (Ret (mkFlaskResponse 200), mkState [ex_run] [], []).
Proof.
  exact (probe_is_acknowledged (ex_request (PStr "test")) _
           (mkState [ex_run] []) eq_refl eq_refl).
Defined.

Lemma other_events_are_processed_witness :
  spawned (snd (run_function (ex_request (PStr "mandatory"))
                  (mkState [] []))) =
    [ mkArgs (ex_body "post_plan") (ex_raw "post_plan") (Some "deadbeef") ] /\
  fst (fst (run_function (ex_request PNone) (mkState [] []))) =
    Ret (mkFlaskResponse 200).
Proof.
  split.
  - rewrite (other_events_are_processed (ex_request (PStr "mandatory")) _
               (mkState [] []) eq_refl);
      [reflexivity|discriminate].
  - rewrite (other_events_are_processed (ex_request PNone) _
               (mkState [] []) eq_refl);
      [reflexivity|discriminate].
Defined.

(** *** The secrets file *)

Lemma comments_and_blanks_are_ignored_witness :
  is_comment ("# secrets of the run task" ++ nl)%string = true /\
  strip nl = EmptyString /\
  get_secret (mkHost (Some ex_secret_lines) ex_environ) "TFC_API_TOKEN" =
  get_secret
    (mkHost (Some [ ("HMAC_SECRET=s3cr3t" ++ nl)%string;
                    ("TFC_API_TOKEN=abc=def" ++ nl)%string ])
       ex_environ) "TFC_API_TOKEN".
Proof.
  split; [reflexivity|]. split; [reflexivity|].
  exact (eq_trans
           (comments_and_blanks_are_ignored []
              ("# secrets of the run task" ++ nl)%string
              [ nl; ("HMAC_SECRET=s3cr3t" ++ nl)%string;
                ("TFC_API_TOKEN=abc=def" ++ nl)%string ]
              ex_environ "TFC_API_TOKEN" (or_intror eq_refl))
           (comments_and_blanks_are_ignored [] nl
              [ ("HMAC_SECRET=s3cr3t" ++ nl)%string;
                ("TFC_API_TOKEN=abc=def" ++ nl)%string ]
              ex_environ "TFC_API_TOKEN" (or_introl eq_refl))).
Defined.

Lemma line_without_eq_raises_witness :
  let line := ("HMAC_SECRET s3cr3t" ++ nl)%string in
  kept line = true /\
  has_eq (strip line) = false /\
  get_secret
    (mkHost (Some [ ("# secrets" ++ nl)%string; line;
                    ("TFC_API_TOKEN=abc=def" ++ nl)%string ])
       ex_environ) "TFC_API_TOKEN" =
    ([Print [Lit "Found secrets file."]], Raises ValueError).
Proof.
  intros line. split; [reflexivity|]. split; [reflexivity|].
  exact (line_without_eq_raises [ ("# secrets" ++ nl)%string ] line
           [ ("TFC_API_TOKEN=abc=def" ++ nl)%string ] ex_environ
           "TFC_API_TOKEN" eq_refl eq_refl).
Defined.

Lemma last_definition_wins_witness :
  let line := ("  TFC_API_TOKEN=abc=def " ++ nl)%string in
  strip line = "TFC_API_TOKEN=abc=def" /\
  get_secret
    (mkHost
       (Some [ ("TFC_API_TOKEN=old" ++ nl)%string; ("# rotated" ++ nl)%string;
               line; nl; ("HMAC_SECRET=s3cr3t" ++ nl)%string ])
       ex_environ) "TFC_API_TOKEN" =
    ([Print [Lit "Found secrets file."]], Returns (PStr "abc=def")).
Proof.
  intros line. split; [reflexivity|].
  apply (last_definition_wins
           [ ("TFC_API_TOKEN=old" ++ nl)%string; ("# rotated" ++ nl)%string ]
           line
           [ nl; ("HMAC_SECRET=s3cr3t" ++ nl)%string ] ex_environ
           "TFC_API_TOKEN" "abc=def").
  - repeat constructor; intros K; try reflexivity; discriminate K.
  - reflexivity.
  - reflexivity.
  - reflexivity.
  - repeat constructor; intros K; vm_compute in K; discriminate K.
Defined.

Lemma file_shadows_environment_witness :
  ex_environ "HMAC_SECRET" = Some "from-env" /\
  get_secret
    (mkHost (Some [ ("TFC_API_TOKEN=abc=def" ++ nl)%string ]) ex_environ)
    "HMAC_SECRET" =
    ([Print [Lit "Found secrets file."]], Returns PNone).
Proof.
  split; [reflexivity|].
  apply (file_shadows_environment [ ("TFC_API_TOKEN=abc=def" ++ nl)%string ]
           ex_environ "HMAC_SECRET").
  - repeat constructor.
  - repeat constructor; intros K; vm_compute in K; discriminate K.
Defined.

Lemma import_needs_hmac_secret_witness :
  snd (load_globals
         (mkHost (Some [ ("TFC_API_TOKEN=abc=def" ++ nl)%string ])
            ex_environ)) =
    Raises (Raised TypeError) /\
  snd (load_globals (mkHost None (fun _ => None))) =
    Raises (Raised TypeError).
Proof.
  split.
  - apply (import_needs_hmac_secret
             (mkHost (Some [ ("TFC_API_TOKEN=abc=def" ++ nl)%string ])
                ex_environ)).
    split.
    + repeat constructor.
    + repeat constructor; intros K; vm_compute in K; discriminate K.
  - exact (import_needs_hmac_secret (mkHost None (fun _ => None)) eq_refl).
Defined.

Lemma missing_api_token_is_sent_as_none_witness :
  exists g,
    snd (load_globals (mkHost None ex_environ)) = Returns g /\
    g_secret_key g = "from-env" /\
    forall prev s res s' evs rq,
      process_queue_iteration (g_api_token g) prev s = (res, s', evs) ->
      In rq (http_calls evs) ->
      headers_of rq =
        [ ("Authorization", [Lit "Bearer "; Fmt PNone]);
          ("Content-Type", [Lit "application/vnd.api+json"]) ].
Proof.
  exact (missing_api_token_is_sent_as_none (mkHost None ex_environ)
           "from-env" eq_refl eq_refl).
Defined.

(** *** The scheduler *)

Lemma apply_only_after_confirmable_witness :
  let s := mkState [ex_run]
             [Answer (ex_run_reply "planned" true); Answer (ex_reply 202)] in
  let out := process_queue_iteration ex_api_token PNone s in
  In (apply_run ex_api_token ex_run) (http_calls (snd out)) /\
  exists q r net,
    s = mkState (ex_run :: q) (Answer r :: net) /\
    status_code r = 200%Z /\ confirmable r.
Proof.
  intros s out.
  assert (E : out = (fst (fst out), snd (fst out), snd out))
    by (vm_compute; reflexivity).
  assert (I : In (apply_run ex_api_token ex_run) (http_calls (snd out)))
    by (right; left; reflexivity).
  split; [exact I|].
  exact (apply_only_after_confirmable ex_api_token PNone s _ _ _ ex_run E I).
Defined.

Lemma exception_ends_the_loop_witness :
  let r := ex_run_reply "planned" true in
  status_code r = 200%Z /\
  confirmable r /\
  process_queue_loop ex_api_token 3 PNone
    (mkState [ex_run; PStr "run-2"]
       [Answer r; Fault (RequestException "timeout"); Answer r]) =
    (Raise (RequestException "timeout"),
     mkState [PStr "run-2"] [Answer r],
     polled ex_api_token PNone ex_run (Answer r) ++
     [Http (apply_run ex_api_token ex_run)
        (Fault (RequestException "timeout"))]).
Proof.
  intros r.
  assert (S : status_code r = 200%Z) by reflexivity.
  assert (C : confirmable r).
  { split; [exists (PStr "planned")|exists (PBool true)]; split; reflexivity. }
  split; [exact S|]. split; [exact C|].
  exact (proj2 (exception_ends_the_loop ex_api_token 2 PNone ex_run
                  [PStr "run-2"] [Answer r])
           r (RequestException "timeout") S C).
Defined.

Lemma malformed_reply_ends_the_loop_witness :
  let r := ex_html_reply 200 in
  status_code r = 200%Z /\
  attribute r "status" = None /\
  exists e,
    process_queue_loop ex_api_token 3 PNone
      (mkState [ex_run; PStr "run-2"]
         [Answer r; Answer (ex_run_reply "planned" true)]) =
      (Raise e,
       mkState [PStr "run-2"] [Answer (ex_run_reply "planned" true)],
       polled ex_api_token PNone ex_run (Answer r)).
Proof.
  intros r. split; [reflexivity|]. split; [reflexivity|].
  exact (malformed_reply_ends_the_loop ex_api_token 2 PNone ex_run
           [PStr "run-2"] [Answer (ex_run_reply "planned" true)] r
           eq_refl eq_refl).
Defined.

Lemma queue_is_conserved_witness :
  let s := mkState [ex_run; PStr "run-2"]
             [ Answer (ex_run_reply "planned" false);
               Answer (ex_run_reply "planned_and_finished" false);
               Answer (ex_run_reply "planned" true); Answer (ex_reply 409) ] in
  let out := process_queue_loop ex_api_token 3 PNone s in
  (List.length (run_ids_queue (snd (fst out))) +
   List.length (taken (snd out)) =
   List.length (run_ids_queue s) + List.length (puts (snd out)))%nat /\
  (List.length (puts (snd out)) <= List.length (taken (snd out)))%nat.
Proof.
  intros s out.
  assert (E : process_queue_loop ex_api_token 3 PNone s =
              (fst (fst out), snd (fst out), snd out))
    by (vm_compute; reflexivity).
  exact (queue_is_conserved ex_api_token 3 PNone s _ _ _ E).
Defined.

Lemma first_come_first_served_witness :
  let q := [ex_run; PStr "run-2"; PStr "run-3"] in
  let net := [ Answer (ex_run_reply "planned" false);
               Answer (ex_run_reply "planned_and_finished" false) ] in
  let out := process_queue_loop ex_api_token 2 PNone (mkState q net) in
  taken (snd out) = [ex_run; PStr "run-2"] /\
  exists back,
    run_ids_queue (snd (fst out)) = [PStr "run-3"] ++ back /\
    incl back [ex_run; PStr "run-2"].
Proof.
  intros q net out.
  assert (E : process_queue_loop ex_api_token 2 PNone (mkState q net) =
              (Ret (PStr "run-2"), snd (fst out), snd out))
    by (vm_compute; reflexivity).
  assert (L : (2 <= List.length q)%nat) by (cbn; lia).
  exact (first_come_first_served ex_api_token 2 PNone q net _ _ _ E L).
Defined.

Lemma lone_entry_is_throttled_witness :
  let rds := [ NotYet (ex_run_reply "planned" false);
               Conflict (ex_run_reply "planned" true) (ex_reply 409);
               NotYet (ex_run_reply "planned" false) ] in
  Forall round_ok rds /\
  exists p evs,
    process_queue ex_api_token 3
      (mkState [PStr "run-1"] (script rds ++ [Answer (ex_reply 202)])) =
      (Ret p, mkState [PStr "run-1"] [Answer (ex_reply 202)], evs) /\
    taken evs = [PStr "run-1"; PStr "run-1"; PStr "run-1"] /\
    sleeps evs = [5%Z; 5%Z].
Proof.
  intros rds.
  assert (W : waiting (ex_run_reply "planned" false)).
  { split; [exists (PStr "planned")|exists (PBool false)]; split; reflexivity. }
  assert (C : confirmable (ex_run_reply "planned" true)).
  { split; [exists (PStr "planned")|exists (PBool true)]; split; reflexivity. }
  assert (F : Forall round_ok rds).
  { constructor; [split; [reflexivity|exact W]|].
    constructor; [split; [reflexivity|split; [exact C|reflexivity]]|].
    constructor; [split; [reflexivity|exact W]|]. constructor. }
  split; [exact F|].
  exact (lone_entry_is_throttled ex_api_token "run-1" rds
           [Answer (ex_reply 202)] F).
Defined.

Lemma two_entries_are_never_throttled_witness :
  let r := ex_run_reply "planned" false in
  exists p s' evs,
    process_queue ex_api_token 3
      (mkState [PStr "run-1"; PStr "run-2"]
         [Answer r; Answer r; Answer r; Answer (ex_reply 202)]) =
      (Ret p, s', evs) /\
    sleeps evs = [] /\
    List.length (http_calls evs) = 3%nat /\
    network s' = [Answer (ex_reply 202)].
Proof.
  intros r.
  assert (N : "run-1" <> "run-2") by discriminate.
  assert (W : waiting r).
  { split; [exists (PStr "planned")|exists (PBool false)]; split; reflexivity. }
  assert (F : Forall (fun r => status_code r = 200%Z /\ waiting r) [r; r; r]).
  { repeat (constructor; [split; [reflexivity|exact W]|]). constructor. }
  exact (two_entries_are_never_throttled ex_api_token "run-1" "run-2"
           [r; r; r] [Answer (ex_reply 202)] N F).
Defined.

(** *** The worker *)

Lemma missing_access_token_raises_witness :
  let body := [("stage", PStr "post_plan"); ("run_id", ex_run)] in
  let s := mkState [PStr "run-0"] [Answer (ex_reply 200)] in
  ex_process_request body (dumps (PDict body)) (Some "deadbeef") s =
    (Raise (KeyError "access_token"), s, []).
Proof.
  intros body s.
  exact (missing_access_token_raises ex_key ex_api_token HmacSha512.hexdigest
           body (dumps (PDict body)) (Some "deadbeef") s eq_refl).
Defined.

Lemma missing_run_id_fails_witness :
  let body := ex_body_run (PStr EmptyString) in
  let raw := dumps (PDict body) in
  let request_hmac := Some (HmacSha512.hexdigest ex_key raw) in
  post_plan_event ex_key HmacSha512.hexdigest body raw request_hmac
    (PStr "event-token") /\
  truthy (py_get body "run_id") = false /\
  exists res evs,
    ex_process_request body raw request_hmac
      (mkState [] [Answer (ex_reply 200)]) =
      (res, mkState [] (tl [Answer (ex_reply 200)]), evs) /\
    verdicts evs =
      [ (py_get body "task_result_callback_url",
         verdict "failed"
           [Lit "There was no run_id specified in the payload."]) ] /\
    List.length (http_calls evs) = 1%nat /\
    puts evs = [].
Proof.
  intros body raw request_hmac.
  assert (E : post_plan_event ex_key HmacSha512.hexdigest body raw
                request_hmac (PStr "event-token"))
    by (split; [|split; [|split]]; reflexivity).
  assert (R : truthy (py_get body "run_id") = false) by reflexivity.
  split; [exact E|]. split; [exact R|].
  exact (missing_run_id_fails ex_key ex_api_token HmacSha512.hexdigest
           body raw request_hmac (PStr "event-token") []
           [Answer (ex_reply 200)] E R).
Defined.

Lemma run_fetch_failure_fails_witness :
  let body := ex_body "post_plan" in
  let raw := ex_raw "post_plan" in
  let run_r := ex_html_reply 502 in
  status_code run_r <> 200%Z /\
  exists res evs,
    ex_process_request body raw (ex_signature "post_plan")
      (mkState [] [Answer run_r; Answer (ex_reply 200)]) =
      (res, mkState [] (tl [Answer (ex_reply 200)]), evs) /\
    verdicts evs =
      [ (py_get body "task_result_callback_url",
         verdict "failed"
           [Lit "Failed to get run details: "; Fmt (PStr (text run_r))]) ] /\
    List.length (http_calls evs) = 2%nat /\
    puts evs = [].
Proof.
  intros body raw run_r.
  assert (E : post_plan_event ex_key HmacSha512.hexdigest body raw
                (ex_signature "post_plan") (PStr "event-token"))
    by (split; [|split; [|split]]; reflexivity).
  assert (S : status_code run_r <> 200%Z) by discriminate.
  split; [exact S|].
  exact (run_fetch_failure_fails ex_key ex_api_token HmacSha512.hexdigest
           body raw (ex_signature "post_plan") (PStr "event-token") []
           run_r [Answer (ex_reply 200)] E eq_refl S).
Defined.

Lemma other_source_passes_witness :
  let body := ex_body "post_plan" in
  let raw := ex_raw "post_plan" in
  attribute ex_ui_run_reply "source" = Some (PStr "tfe-ui") /\
  exists res evs,
    ex_process_request body raw (ex_signature "post_plan")
      (mkState [] [Answer ex_ui_run_reply; Answer (ex_reply 200)]) =
      (res, mkState [] (tl [Answer (ex_reply 200)]), evs) /\
    verdicts evs =
      [ (py_get body "task_result_callback_url",
         verdict "passed"
           [Lit "Nothing to do. This is not a run triggered run."]) ] /\
    List.length (http_calls evs) = 2%nat /\
    puts evs = [].
Proof.
  intros body raw.
  assert (E : post_plan_event ex_key HmacSha512.hexdigest body raw
                (ex_signature "post_plan") (PStr "event-token"))
    by (split; [|split; [|split]]; reflexivity).
  split; [reflexivity|].
  exact (other_source_passes ex_key ex_api_token HmacSha512.hexdigest
           body raw (ex_signature "post_plan") (PStr "event-token") []
           ex_ui_run_reply [Answer (ex_reply 200)] (PStr "tfe-ui")
           E eq_refl eq_refl eq_refl eq_refl).
Defined.

Lemma workspace_fetch_failure_fails_witness :
  let body := ex_body "post_plan" in
  let raw := ex_raw "post_plan" in
  let run_r := ex_run_reply "planned" false in
  let ws_r := ex_html_reply 502 in
  exists res evs,
    ex_process_request body raw (ex_signature "post_plan")
      (mkState [] [Answer run_r; Answer ws_r; Answer (ex_reply 200)]) =
      (res, mkState [] (tl [Answer (ex_reply 200)]), evs) /\
    verdicts evs =
      [ (py_get body "task_result_callback_url",
         verdict "failed"
           [Lit "Failed to get workspace details: ";
            Fmt (PStr (text ws_r))]) ] /\
    http_calls evs =
      [ GET (run_details_url (py_get body "run_id")) (tfc_headers ex_api_token);
        GET (workspace_url (PStr "ws-1")) (tfc_headers ex_api_token);
        PATCH (py_get body "task_result_callback_url")
          (verdict "failed"
             [Lit "Failed to get workspace details: ";
              Fmt (PStr (text ws_r))])
          (run_task_headers (PStr "event-token")) ] /\
    puts evs = [].
Proof.
  intros body raw run_r ws_r.
  assert (E : post_plan_event ex_key HmacSha512.hexdigest body raw
                (ex_signature "post_plan") (PStr "event-token"))
    by (split; [|split; [|split]]; reflexivity).
  assert (S : status_code ws_r <> 200%Z) by discriminate.
  exact (workspace_fetch_failure_fails ex_key ex_api_token
           HmacSha512.hexdigest body raw (ex_signature "post_plan")
           (PStr "event-token") [] run_r ws_r [Answer (ex_reply 200)]
           (PStr "tfe-run-trigger") (PStr "ws-1")
           E eq_refl eq_refl eq_refl eq_refl eq_refl S).
Defined.

(** [auto-apply] is null: the run is queued. *)
Lemma auto_apply_decides_witness :
  let body := ex_body "post_plan" in
  let raw := ex_raw "post_plan" in
  let run_r := ex_run_reply "planned" false in
  attribute ex_workspace_null_reply "auto-apply" = Some PNone /\
  exists res evs,
    ex_process_request body raw (ex_signature "post_plan")
      (mkState [PStr "run-0"]
         [Answer run_r; Answer ex_workspace_null_reply;
          Answer (ex_reply 200)]) =
      (res, mkState [PStr "run-0"; ex_run] [], evs) /\
    puts evs = [ex_run] /\
    verdicts evs =
      [ (py_get body "task_result_callback_url",
         verdict "passed"
           [Lit "Added "; Fmt ex_run;
            Lit " to the queue to be auto-applied when ready."]) ].
Proof.
  intros body raw run_r.
  assert (E : post_plan_event ex_key HmacSha512.hexdigest body raw
                (ex_signature "post_plan") (PStr "event-token"))
    by (split; [|split; [|split]]; reflexivity).
  split; [reflexivity|].
  exact (auto_apply_decides ex_key ex_api_token HmacSha512.hexdigest
           body raw (ex_signature "post_plan") (PStr "event-token")
           [PStr "run-0"] run_r ex_workspace_null_reply
           [Answer (ex_reply 200)] (PStr "tfe-run-trigger") (PStr "ws-1")
           PNone E eq_refl eq_refl eq_refl eq_refl eq_refl eq_refl eq_refl).
Defined.

Lemma malformed_run_reply_sends_no_verdict_witness :
  let body := ex_body "post_plan" in
  let raw := ex_raw "post_plan" in
  let run_r := ex_reply 200 in
  attribute run_r "source" = None /\
  exists e,
    ex_process_request body raw (ex_signature "post_plan")
      (mkState [] [Answer run_r; Answer (ex_reply 200)]) =
      (Raise e, mkState [] [Answer (ex_reply 200)],
       [ Print [Lit "Processing message received from ";
                Fmt (py_get body "run_id")];
         Http (GET (run_details_url (py_get body "run_id"))
                 (tfc_headers ex_api_token)) (Answer run_r) ]).
Proof.
  intros body raw run_r.
  assert (E : post_plan_event ex_key HmacSha512.hexdigest body raw
                (ex_signature "post_plan") (PStr "event-token"))
    by (split; [|split; [|split]]; reflexivity).
  assert (A : attribute run_r "source" = None) by reflexivity.
  split; [exact A|].
  exact (malformed_run_reply_sends_no_verdict ex_key ex_api_token
           HmacSha512.hexdigest body raw (ex_signature "post_plan")
           (PStr "event-token") [] run_r [Answer (ex_reply 200)]
           E eq_refl eq_refl (or_introl A)).
Defined.

Lemma worker_shape_witness :
  let s := mkState [PStr "run-0"]
             [ Answer (ex_run_reply "planned" false);
               Answer (ex_workspace_reply true); Answer (ex_reply 200) ] in
  let out := ex_process_request (ex_body "post_plan") (ex_raw "post_plan")
               (ex_signature "post_plan") s in
  fst (fst out) <> Block /\
  taken (snd out) = [] /\
  (List.length (http_calls (snd out)) <= 3)%nat /\
  Forall not_a_post (http_calls (snd out)) /\
  (List.length (verdicts (snd out)) <= 1)%nat /\
  run_ids_queue (snd (fst out)) = run_ids_queue s ++ puts (snd out).
Proof.
  intros s out.
  assert (E : out = (fst (fst out), snd (fst out), snd out))
    by (destruct out as [[res s'] evs]; reflexivity).
  destruct (worker_shape ex_key ex_api_token HmacSha512.hexdigest
              (ex_body "post_plan") (ex_raw "post_plan")
              (ex_signature "post_plan") s _ _ _ E)
    as (B & T & H & P & V & Q & _).
  exact (conj B (conj T (conj H (conj P (conj V Q))))).
Defined.

(** *** The handler, and the parts together *)

Lemma non_object_body_raises_witness :
  let request :=
    mkRequest (PList [PStr "test"]) (dumps (PList [PStr "test"]))
      (fun _ => None) EmptyString in
  run_function request (mkState [ex_run] []) =
    (Raise AttributeError, mkState [ex_run] [], []).
Proof.
  intros request.
  apply (non_object_body_raises request (mkState [ex_run] [])).
  intros d H. discriminate H.
Defined.

